(** * BookFinder: the search, filter and presentation flow

    A shallow embedding of the two React components of the repository, the
    typed [BookFinder] (utility-class styling) and the untyped [Books]
    (separate stylesheet), together with the properties their description
    states about them.

    Modelling conventions.
    - A JavaScript string is the list of its UTF-16 code units ([N]).
    - A JavaScript number that the components handle is an integer (years,
      cover ids, edition counts, the result of [parseInt]); it is a [Z], and
      the one non-integer value that occurs, the [NaN] of a failed parse, is
      a constructor of [number].  Values are taken in the range where
      doubles are exact.
    - An optional field of a record is an [option]; [None] is [undefined].
    - React state is a record; a setter replaces one field. *)

From Stdlib Require Import ZArith NArith Lia String Ascii DecimalPos.
From stdpp Require Import list.

Local Open Scope Z_scope.

(** ** JavaScript values *)

Definition js_string := list N.

(** A literal of the source, as code units. *)
Definition lit (s : string) : js_string :=
  map N_of_ascii (list_ascii_of_string s).

(** [ToBoolean] on a string: only the empty string is falsy. *)
Definition truthy_string (s : js_string) : bool :=
  match s with
  | [] => false
  | _ :: _ => true
  end.

(** [ToBoolean] on an optional integer: [undefined] and [0] are falsy. *)
Definition truthy_number (n : option Z) : bool :=
  match n with
  | None => false
  | Some z => negb (z =? 0)
  end.

(** [x === 'literal'] for an optional string field. *)
Definition strict_eq (x : option js_string) (s : js_string) : bool :=
  bool_decide (x = Some s).

(** WhiteSpace and LineTerminator code units of ECMAScript: TAB, LF, VT, FF,
    CR, SP, NBSP, U+1680, U+2000..U+200A, LS, PS, U+202F, U+205F, U+3000 and
    the byte order mark. *)
Definition isWhiteSpace (c : N) : bool :=
  match c with
  | 9 | 10 | 11 | 12 | 13 | 32 | 160
  | 5760 | 8232 | 8233 | 8239 | 8287 | 12288 | 65279 => true
  | _ => (8192 <=? c) && (c <=? 8202)
  end%N.

Fixpoint trimStart (s : js_string) : js_string :=
  match s with
  | [] => []
  | c :: r => if isWhiteSpace c then trimStart r else s
  end.

Definition trimEnd (s : js_string) : js_string :=
  rev (trimStart (rev s)).

(** [String.prototype.trim]. *)
Definition trim (s : js_string) : js_string :=
  trimEnd (trimStart s).

(** The numbers [parseInt] returns. *)
Inductive number :=
| NaN
| Num (z : Z).

(** Value of a code unit as a digit: [0-9], [a-z] and [A-Z]. *)
Definition digitValue (c : N) : option Z :=
  if ((48 <=? c) && (c <=? 57))%N then Some (Z.of_N c - 48)
  else if ((97 <=? c) && (c <=? 122))%N then Some (Z.of_N c - 87)
  else if ((65 <=? c) && (c <=? 90))%N then Some (Z.of_N c - 55)
  else None.

(** The longest prefix of radix-[R] digits, accumulated from the left;
    [acc] is [None] until a digit has been read. *)
Fixpoint parseDigits (R : Z) (acc : option Z) (s : js_string) : option Z :=
  match s with
  | [] => acc
  | c :: r =>
      match digitValue c with
      | Some d =>
          if d <? R then parseDigits R (Some (default 0 acc * R + d)) r
          else acc
      | None => acc
      end
  end.

(** [parseInt(s)] with no radix argument: leading white space is skipped, a
    sign is read, a [0x] or [0X] prefix selects radix 16, and the longest
    run of digits is the value; with no digit the result is [NaN]. *)
Definition parseInt (s : js_string) : number :=
  let str := trimStart s in
  let '(sign, str) :=
    match str with
    | 45%N :: r => (-1, r)
    | 43%N :: r => (1, r)
    | _ => (1, str)
    end in
  let '(R, str) :=
    match str with
    | 48%N :: 120%N :: r => (16, r)
    | 48%N :: 88%N :: r => (16, r)
    | _ => (10, str)
    end in
  match parseDigits R None str with
  | None => NaN
  | Some mathInt => Num (sign * mathInt)
  end.

(** [y >= n] and [y <= n] where [y] is an optional integer field:
    [undefined] converts to [NaN], and a comparison with [NaN] on either
    side is false. *)
Definition js_ge (y : option Z) (n : number) : bool :=
  match y, n with
  | Some y, Num m => m <=? y
  | _, _ => false
  end.

Definition js_le (y : option Z) (n : number) : bool :=
  match y, n with
  | Some y, Num m => y <=? m
  | _, _ => false
  end.

(** ** Data model *)

Record Book := {
  key : js_string;
  title : js_string;
  author_name : option (list js_string);
  first_publish_year : option Z;
  cover_i : option Z;
  ebook_access : option js_string;
  edition_count : option Z;
  language : option (list js_string);
  subject : option (list js_string);
  publisher : option (list js_string)
}.

Record Filters := {
  hasEbook : bool;
  yearFrom : js_string;
  yearTo : js_string
}.

(** The component state: one field per [useState] hook. *)
Record State := {
  searchQuery : js_string;
  searchType : js_string;
  books : list Book;
  loading : bool;
  error : js_string;
  selectedBook : option Book;
  filters : Filters;
  showFilters : bool
}.

Definition setBooks (v : list Book) (s : State) : State :=
  {| searchQuery := searchQuery s; searchType := searchType s; books := v;
     loading := loading s; error := error s; selectedBook := selectedBook s;
     filters := filters s; showFilters := showFilters s |}.

Definition setLoading (v : bool) (s : State) : State :=
  {| searchQuery := searchQuery s; searchType := searchType s;
     books := books s; loading := v; error := error s;
     selectedBook := selectedBook s; filters := filters s;
     showFilters := showFilters s |}.

Definition setError (v : js_string) (s : State) : State :=
  {| searchQuery := searchQuery s; searchType := searchType s;
     books := books s; loading := loading s; error := v;
     selectedBook := selectedBook s; filters := filters s;
     showFilters := showFilters s |}.

(** The initial values given to [useState]. *)
Definition initialFilters : Filters :=
  {| hasEbook := false; yearFrom := lit ""; yearTo := lit "" |}.

Definition initialState : State :=
  {| searchQuery := lit ""; searchType := lit "title"; books := [];
     loading := false; error := lit ""; selectedBook := None;
     filters := initialFilters; showFilters := false |}.

(** What the awaited [fetch(url)] followed by [response.json()] yields:
    either one of the two promises rejects (or the body is [null], so that
    reading [data.docs] throws), or [data] is a value whose [docs] member
    is an array of records or is missing. *)
Inductive Response :=
| Rejected
| Resolved (docs : option (list Book)).

(** The browser functions the handler calls.  [encodeURIComponent] is
    partial: it throws [URIError] on a lone surrogate. *)
Record Browser := {
  encodeURIComponent : js_string → option js_string;
  fetch_json : js_string → Response
}.

(** How far a call of [handleSearch] gets before it suspends. *)
Inductive Started :=
| NoOp                                   (* the early [return] *)
| Aborted (s : State)                    (* threw before the request *)
| Awaiting (s : State) (url : js_string). (* suspended at [await fetch] *)

(** ** Rendering helpers *)

(** [Array.prototype.join] on an array of strings. *)
Fixpoint join (sep : js_string) (l : list js_string) : js_string :=
  match l with
  | [] => []
  | [x] => x
  | x :: r => x ++ sep ++ join sep r
  end.

(** [String.prototype.toUpperCase] on the ASCII letters, which is what
    language codes are made of; other code units are kept. *)
Definition toUpperCase (s : js_string) : js_string :=
  map (λ c, if ((97 <=? c) && (c <=? 122))%N then (c - 32)%N else c) s.

Fixpoint digits (d : Decimal.uint) : js_string :=
  match d with
  | Decimal.Nil => []
  | Decimal.D0 r => 48%N :: digits r
  | Decimal.D1 r => 49%N :: digits r
  | Decimal.D2 r => 50%N :: digits r
  | Decimal.D3 r => 51%N :: digits r
  | Decimal.D4 r => 52%N :: digits r
  | Decimal.D5 r => 53%N :: digits r
  | Decimal.D6 r => 54%N :: digits r
  | Decimal.D7 r => 55%N :: digits r
  | Decimal.D8 r => 56%N :: digits r
  | Decimal.D9 r => 57%N :: digits r
  end.

(** An integer interpolated in a template literal. *)
Definition toString (z : Z) : js_string :=
  match Z.to_int z with
  | Decimal.Pos d => digits d
  | Decimal.Neg d => 45%N :: digits d
  end.

(** A [{expression}] child of an element whose value is a number or a
    string. *)
Inductive Child :=
| CNum (z : Z)
| CText (s : js_string).

(** [n || fallback] for an optional number. *)
Definition or_else (n : option Z) (fallback : Child) : Child :=
  match n with
  | Some z => if truthy_number n then CNum z else fallback
  | None => fallback
  end.

(** [cond ? <img src={url} /> : <Book />] on the result of [getCoverUrl]:
    the image is drawn when the URL is a non-empty string. *)
Definition img_or_icon (coverUrl : option js_string) : option js_string :=
  match coverUrl with
  | Some url => if truthy_string url then Some url else None
  | None => None
  end.

(** The information a result card shows.  [card_cover] is the image source,
    [None] when the placeholder icon is drawn instead; [card_badge] tells
    whether the eBook badge is present. *)
Record CardView := {
  card_cover : option js_string;
  card_title : js_string;
  card_authors : js_string;
  card_year : Child;
  card_badge : bool
}.

(** The information the detail view shows.  [modal_subjects] and
    [modal_publishers] are [None] when their block is not rendered. *)
Record ModalView := {
  modal_cover : option js_string;
  modal_title : js_string;
  modal_authors : js_string;
  modal_year : Child;
  modal_editions : Child;
  modal_language : js_string;
  modal_ebook : js_string;
  modal_subjects : option (list js_string);
  modal_publishers : option js_string;
  modal_link : js_string
}.

(** ** The typed component, [BookFinder] *)

Module BookFinder.

Definition noBooksMessage : js_string :=
  lit "No books found. Try a different search term.".

Definition failedMessage : js_string :=
  lit "Failed to fetch books. Please check your connection and try again.".

(** The filter stage of [handleSearch]: the three conditional
    [filteredBooks = filteredBooks.filter(...)] assignments, in order. *)
Definition filteredBooks (docs : list Book) (filters : Filters) : list Book :=
  let filteredBooks := docs in
  let filteredBooks :=
    if hasEbook filters then
      filter (λ book, Is_true
        (strict_eq (ebook_access book) (lit "borrowable")
         || strict_eq (ebook_access book) (lit "public"))) filteredBooks
    else filteredBooks in
  let filteredBooks :=
    if truthy_string (yearFrom filters) then
      filter (λ book, Is_true
        (truthy_number (first_publish_year book)
         && js_ge (first_publish_year book) (parseInt (yearFrom filters))))
        filteredBooks
    else filteredBooks in
  let filteredBooks :=
    if truthy_string (yearTo filters) then
      filter (λ book, Is_true
        (truthy_number (first_publish_year book)
         && js_le (first_publish_year book) (parseInt (yearTo filters))))
        filteredBooks
    else filteredBooks in
  filteredBooks.

(** [handleSearch] up to its first [await].  The state read is the one of
    the render the handler was created in. *)
Definition handleSearch_start (w : Browser) (s : State) : Started :=
  if negb (truthy_string (trim (searchQuery s))) then NoOp
  else
    let s1 := setBooks [] (setError (lit "") (setLoading true s)) in
    match encodeURIComponent w (searchQuery s) with
    | Some q =>
        Awaiting s1
          (lit "https://openlibrary.org/search.json?" ++ searchType s
           ++ lit "=" ++ q ++ lit "&limit=20")
    | None => Aborted (setLoading false (setError failedMessage s1))
    end.

(** [handleSearch] from the point where the awaited response arrives: the
    [try] body after the [await]s, the [catch] and the [finally].
    [filters] is the value the handler captured; [s] is the state the
    setters act on. *)
Definition handleSearch_resume (filters : Filters) (data : Response)
    (s : State) : State :=
  let s :=
    match data with
    | Resolved (Some docs) =>
        if (0 <? length docs)%nat then setBooks (filteredBooks docs filters) s
        else setError noBooksMessage s
    | Resolved None => setError noBooksMessage s
    | Rejected => setError failedMessage s
    end in
  setLoading false s.

(** One whole call of [handleSearch] with nothing else happening in
    between: the resulting state and the requests sent, in order. *)
Definition handleSearch (w : Browser) (s : State) : State * list js_string :=
  match handleSearch_start w s with
  | NoOp => (s, [])
  | Aborted s' => (s', [])
  | Awaiting s' url =>
      (handleSearch_resume (filters s) (fetch_json w url) s', [url])
  end.

Definition handleKeyPress (w : Browser) (e_key : js_string) (s : State)
    : State * list js_string :=
  if bool_decide (e_key = lit "Enter") then handleSearch w s else (s, []).

Definition getCoverUrl (book : Book) (size : js_string) : option js_string :=
  match cover_i book with
  | Some c =>
      if truthy_number (cover_i book) then
        Some (lit "https://covers.openlibrary.org/b/id/" ++ toString c
              ++ lit "-" ++ size ++ lit ".jpg")
      else None
  | None => None
  end.

Definition BookCard (book : Book) : CardView :=
  let coverUrl := getCoverUrl book (lit "M") in
  {| card_cover := img_or_icon coverUrl;
     card_title := title book;
     card_authors :=
       match author_name book with
       | Some a => join (lit ", ") (take 2 a)
       | None => lit "Unknown Author"
       end;
     card_year := or_else (first_publish_year book) (CText (lit "Year unknown"));
     card_badge := negb (strict_eq (ebook_access book) (lit "no_ebook")) |}.

Definition BookModal (book : Book) : ModalView :=
  let coverUrl := getCoverUrl book (lit "L") in
  {| modal_cover := img_or_icon coverUrl;
     modal_title := title book;
     modal_authors :=
       match author_name book with
       | Some a => join (lit ", ") a
       | None => lit "Unknown Author"
       end;
     modal_year := or_else (first_publish_year book) (CText (lit "Unknown"));
     modal_editions := or_else (edition_count book) (CNum 0);
     modal_language :=
      match language book with
      | Some l => toUpperCase (join (lit ", ") (take 3 l))
      | None => lit "N/A"
      end;
     modal_ebook :=
       if strict_eq (ebook_access book) (lit "no_ebook")
       then lit "Not Available" else lit "Available";
     modal_subjects :=
      match subject book with
      | Some l => if (0 <? length l)%nat then Some (take 10 l) else None
      | None => None
      end;
     modal_publishers :=
      match publisher book with
      | Some l =>
          if (0 <? length l)%nat then Some (join (lit ", ") (take 3 l))
          else None
      | None => None
      end;
     modal_link := lit "https://openlibrary.org" ++ key book |}.

(** [{error && <div>{error}</div>}]: the message on screen, if any. *)
Definition errorBanner (s : State) : option js_string :=
  if truthy_string (error s) then Some (error s) else None.

End BookFinder.

(** ** The untyped component, [Books] *)

Module Books.

Definition noBooksMessage : js_string :=
  lit "No books found. Try a different search term.".

Definition failedMessage : js_string :=
  lit "Failed to fetch books. Please check your connection.".

(** The filter stage of [handleSearch]: the three conditional
    [filteredBooks = filteredBooks.filter(...)] assignments, in order. *)
Definition filteredBooks (docs : list Book) (filters : Filters) : list Book :=
  let filteredBooks := docs in
  let filteredBooks :=
    if hasEbook filters then
      filter (λ book, Is_true
        (strict_eq (ebook_access book) (lit "borrowable")
         || strict_eq (ebook_access book) (lit "public"))) filteredBooks
    else filteredBooks in
  let filteredBooks :=
    if truthy_string (yearFrom filters) then
      filter (λ book, Is_true
        (truthy_number (first_publish_year book)
         && js_ge (first_publish_year book) (parseInt (yearFrom filters))))
        filteredBooks
    else filteredBooks in
  let filteredBooks :=
    if truthy_string (yearTo filters) then
      filter (λ book, Is_true
        (truthy_number (first_publish_year book)
         && js_le (first_publish_year book) (parseInt (yearTo filters))))
        filteredBooks
    else filteredBooks in
  filteredBooks.

(** [handleSearch] up to its first [await].  The state read is the one of
    the render the handler was created in. *)
Definition handleSearch_start (w : Browser) (s : State) : Started :=
  if negb (truthy_string (trim (searchQuery s))) then NoOp
  else
    let s1 := setBooks [] (setError (lit "") (setLoading true s)) in
    match encodeURIComponent w (searchQuery s) with
    | Some q =>
        Awaiting s1
          (lit "https://openlibrary.org/search.json?" ++ searchType s
           ++ lit "=" ++ q ++ lit "&limit=20")
    | None => Aborted (setLoading false (setError failedMessage s1))
    end.

(** [handleSearch] from the point where the awaited response arrives: the
    [try] body after the [await]s, the [catch] and the [finally].
    [filters] is the value the handler captured; [s] is the state the
    setters act on. *)
Definition handleSearch_resume (filters : Filters) (data : Response)
    (s : State) : State :=
  let s :=
    match data with
    | Resolved (Some docs) =>
        if (0 <? length docs)%nat then setBooks (filteredBooks docs filters) s
        else setError noBooksMessage s
    | Resolved None => setError noBooksMessage s
    | Rejected => setError failedMessage s
    end in
  setLoading false s.

(** One whole call of [handleSearch] with nothing else happening in
    between: the resulting state and the requests sent, in order. *)
Definition handleSearch (w : Browser) (s : State) : State * list js_string :=
  match handleSearch_start w s with
  | NoOp => (s, [])
  | Aborted s' => (s', [])
  | Awaiting s' url =>
      (handleSearch_resume (filters s) (fetch_json w url) s', [url])
  end.

Definition handleKeyPress (w : Browser) (e_key : js_string) (s : State)
    : State * list js_string :=
  if bool_decide (e_key = lit "Enter") then handleSearch w s else (s, []).

Definition getCoverUrl (book : Book) (size : js_string) : option js_string :=
  match cover_i book with
  | Some c =>
      if truthy_number (cover_i book) then
        Some (lit "https://covers.openlibrary.org/b/id/" ++ toString c
              ++ lit "-" ++ size ++ lit ".jpg")
      else None
  | None => None
  end.

Definition BookCard (book : Book) : CardView :=
  let coverUrl := getCoverUrl book (lit "M") in
  {| card_cover := img_or_icon coverUrl;
     card_title := title book;
     card_authors :=
       match author_name book with
       | Some a => join (lit ", ") a
       | None => lit "Unknown Author"
       end;
     card_year := or_else (first_publish_year book) (CText (lit "Unknown"));
     card_badge := negb (strict_eq (ebook_access book) (lit "no_ebook")) |}.

Definition BookModal (book : Book) : ModalView :=
  let coverUrl := getCoverUrl book (lit "L") in
  {| modal_cover := img_or_icon coverUrl;
     modal_title := title book;
     modal_authors :=
       match author_name book with
       | Some a => join (lit ", ") a
       | None => lit "Unknown Author"
       end;
     modal_year := or_else (first_publish_year book) (CText (lit "Unknown"));
     modal_editions := or_else (edition_count book) (CNum 0);
     modal_language :=
      match language book with
      | Some l =>
          let s := toUpperCase (join (lit ", ") l) in
          if truthy_string s then s else lit "N/A"
      | None => lit "N/A"
      end;
     modal_ebook :=
       if strict_eq (ebook_access book) (lit "no_ebook")
       then lit "Not Available" else lit "Available";
     modal_subjects :=
      match subject book with
      | Some l => Some (take 10 l)
      | None => None
      end;
     modal_publishers :=
      None;
     modal_link := lit "https://openlibrary.org" ++ key book |}.

(** [{error && <div>{error}</div>}]: the message on screen, if any. *)
Definition errorBanner (s : State) : option js_string :=
  if truthy_string (error s) then Some (error s) else None.

End Books.

(** ** Specification vocabulary *)

(** The three predicates of the filter stage, as propositions. *)
Definition ebookP (book : Book) : Prop :=
  ebook_access book = Some (lit "borrowable")
  ∨ ebook_access book = Some (lit "public").

Definition fromP (f : Filters) (book : Book) : Prop :=
  ∃ y n, first_publish_year book = Some y ∧ y ≠ 0
         ∧ parseInt (yearFrom f) = Num n ∧ n ≤ y.

Definition toP (f : Filters) (book : Book) : Prop :=
  ∃ y n, first_publish_year book = Some y ∧ y ≠ 0
         ∧ parseInt (yearTo f) = Num n ∧ y ≤ n.

(** ** Sample records and states *)

Definition dune : Book :=
  {| key := lit "/works/OL893415W"; title := lit "Dune";
     author_name := Some [lit "Frank Herbert"];
     first_publish_year := Some 1965; cover_i := Some 11481354;
     ebook_access := Some (lit "borrowable"); edition_count := Some 120;
     language := Some [lit "eng"; lit "fre"; lit "ger"; lit "spa"];
     subject := Some [lit "Science fiction"; lit "Deserts"];
     publisher := Some [lit "Chilton Books"; lit "Ace Books"] |}.

(** A record with three authors and an empty language array. *)
Definition goodOmens : Book :=
  {| key := lit "/works/OL453936W"; title := lit "Good Omens";
     author_name :=
       Some [lit "Terry Pratchett"; lit "Neil Gaiman"; lit "Craig Russell"];
     first_publish_year := Some 1990; cover_i := None;
     ebook_access := Some (lit "no_ebook"); edition_count := None;
     language := Some []; subject := Some []; publisher := None |}.

(** A record with only the two mandatory members. *)
Definition bare : Book :=
  {| key := lit "/works/OL1W"; title := lit "Untitled";
     author_name := None; first_publish_year := None; cover_i := None;
     ebook_access := None; edition_count := None; language := None;
     subject := None; publisher := None |}.

(** A record whose year of first publication is the number [0]. *)
Definition yearZero : Book :=
  {| key := lit "/works/OL2W"; title := lit "Annals";
     author_name := None; first_publish_year := Some 0; cover_i := None;
     ebook_access := Some (lit "public"); edition_count := Some 1;
     language := None; subject := None; publisher := None |}.

(** Criteria used below: only the eBook filter; inverted bounds; a lower
    bound that a number input accepts and [parseInt] rejects; a negative
    lower bound. *)
Definition ebookOnly : Filters :=
  {| hasEbook := true; yearFrom := lit ""; yearTo := lit "" |}.

Definition inverted : Filters :=
  {| hasEbook := false; yearFrom := lit "1965"; yearTo := lit "1964" |}.

Definition fromHalf : Filters :=
  {| hasEbook := false; yearFrom := lit ".5"; yearTo := lit "" |}.

Definition fromMinus5 : Filters :=
  {| hasEbook := false; yearFrom := lit "-5"; yearTo := lit "" |}.

(** A state in the middle of a session: a previous search has left two
    results, a message and an open detail view; the query box now holds two
    spaces. *)
Definition midSession : State :=
  {| searchQuery := lit "  "; searchType := lit "author";
     books := [dune; goodOmens]; loading := false;
     error := lit "stale"; selectedBook := Some dune;
     filters := ebookOnly; showFilters := true |}.

Definition withQuery (q : js_string) (s : State) : State :=
  {| searchQuery := q; searchType := searchType s;
     books := books s; loading := loading s; error := error s;
     selectedBook := selectedBook s; filters := filters s;
     showFilters := showFilters s |}.

(** A browser whose encoder never throws and whose request always yields
    the given response. *)
Definition answering (r : Response) : Browser :=
  {| encodeURIComponent := λ q, Some q; fetch_json := λ _, r |}.

(** ** Further vocabulary *)

(** The three tests of the filter stage folded into one predicate: a
    filter that is not active lets every record through. *)
Definition keeps (f : Filters) (book : Book) : bool :=
  (negb (hasEbook f)
   || (strict_eq (ebook_access book) (lit "borrowable")
       || strict_eq (ebook_access book) (lit "public")))
  && (negb (truthy_string (yearFrom f))
      || (truthy_number (first_publish_year book)
          && js_ge (first_publish_year book) (parseInt (yearFrom f))))
  && (negb (truthy_string (yearTo f))
      || (truthy_number (first_publish_year book)
          && js_le (first_publish_year book) (parseInt (yearTo f)))).

(** Two states that differ at most in what a search overwrites: the
    result list, the message and the loading flag. *)
Definition same_inputs (s t : State) : Prop :=
  searchQuery s = searchQuery t ∧ searchType s = searchType t
  ∧ selectedBook s = selectedBook t ∧ filters s = filters t
  ∧ showFilters s = showFilters t.

(** ** The rest of the component: setters, rendering and event wiring *)

Definition setSearchQuery (v : js_string) (s : State) : State :=
  {| searchQuery := v; searchType := searchType s; books := books s;
     loading := loading s; error := error s; selectedBook := selectedBook s;
     filters := filters s; showFilters := showFilters s |}.

Definition setSearchType (v : js_string) (s : State) : State :=
  {| searchQuery := searchQuery s; searchType := v; books := books s;
     loading := loading s; error := error s; selectedBook := selectedBook s;
     filters := filters s; showFilters := showFilters s |}.

Definition setSelectedBook (v : option Book) (s : State) : State :=
  {| searchQuery := searchQuery s; searchType := searchType s;
     books := books s; loading := loading s; error := error s;
     selectedBook := v; filters := filters s; showFilters := showFilters s |}.

Definition setFilters (v : Filters) (s : State) : State :=
  {| searchQuery := searchQuery s; searchType := searchType s;
     books := books s; loading := loading s; error := error s;
     selectedBook := selectedBook s; filters := v;
     showFilters := showFilters s |}.

Definition setShowFilters (v : bool) (s : State) : State :=
  {| searchQuery := searchQuery s; searchType := searchType s;
     books := books s; loading := loading s; error := error s;
     selectedBook := selectedBook s; filters := filters s;
     showFilters := v |}.

(** The [value] members of the [searchTypes] array, one button each. *)
Definition searchTypes : list js_string :=
  [lit "title"; lit "author"; lit "subject"].

(** The result grid: the "Found N books" line, when there is one, and the
    cards. *)
Record Grid := {
  grid_count : option nat;
  grid_cards : list CardView
}.

(** What distinguishes one component from the other. *)
Record Component := {
  c_start : Browser → State → Started;
  c_resume : Filters → Response → State → State;
  c_card : Book → CardView;
  c_modal : Book → ModalView;
  c_grid : State → Grid
}.

(** [{books.length > 0 && (...)}]: the typed component draws the grid, with
    its count, only when there are results. *)
Definition typed : Component :=
  {| c_start := BookFinder.handleSearch_start;
     c_resume := BookFinder.handleSearch_resume;
     c_card := BookFinder.BookCard;
     c_modal := BookFinder.BookModal;
     c_grid := λ s,
       if (0 <? length (books s))%nat then
         {| grid_count := Some (length (books s));
            grid_cards := map BookFinder.BookCard (books s) |}
       else {| grid_count := None; grid_cards := [] |} |}.

(** The untyped component always draws the grid and has no count. *)
Definition untyped : Component :=
  {| c_start := Books.handleSearch_start;
     c_resume := Books.handleSearch_resume;
     c_card := Books.BookCard;
     c_modal := Books.BookModal;
     c_grid := λ s,
       {| grid_count := None; grid_cards := map Books.BookCard (books s) |} |}.

(** [{selectedBook && <BookModal book={selectedBook} ... />}]. *)
Definition modalShown (C : Component) (s : State) : option ModalView :=
  match selectedBook s with
  | Some book => Some (c_modal C book)
  | None => None
  end.

(** The state a search leaves while its request is pending, and the URL
    it requests for an encoded query. *)
Definition pendingState (s : State) : State :=
  setBooks [] (setError (lit "") (setLoading true s)).

Definition searchUrl (field q : js_string) : js_string :=
  lit "https://openlibrary.org/search.json?" ++ field
  ++ lit "=" ++ q ++ lit "&limit=20".

(** The component together with the searches that are suspended at their
    [await]: each holds the criteria its handler captured and the URL it
    requested. *)
Record Config := {
  view : State;
  inflight : list (Filters * js_string)
}.

Definition initialConfig : Config :=
  {| view := initialState; inflight := [] |}.

(** What can happen to the component. *)
Inductive Event :=
| QueryChanged (v : js_string)      (* typing in the query box *)
| QueryKeyPress (e_key : js_string) (* a key pressed in the query box *)
| TypeClicked (i : nat)             (* the [i]-th search-type button *)
| FiltersClicked                    (* the Filters button *)
| SearchClicked                     (* the Search button *)
| HasEbookChanged (checked : bool)  (* the checkbox of the filter panel *)
| YearFromChanged (v : js_string)   (* the two year inputs of the panel *)
| YearToChanged (v : js_string)
| CardClicked (i : nat)             (* the [i]-th card of the grid *)
| ModalContentClicked               (* inside the detail view *)
| ModalClosed                       (* its close button, or outside it *)
| ResponseArrived (i : nat) (data : Response). (* the [i]-th pending
                                       request completes *)

Definition onView (h : State → State) (c : Config) : Config :=
  {| view := h (view c); inflight := inflight c |}.

(** A call of [handleSearch] from the current render. *)
Definition callHandleSearch (C : Component) (w : Browser) (c : Config)
    : Config :=
  match c_start C w (view c) with
  | NoOp => c
  | Aborted s' => {| view := s'; inflight := inflight c |}
  | Awaiting s' url =>
      {| view := s';
         inflight := inflight c ++ [(filters (view c), url)] |}
  end.

(** One event.  A control that is not on screen, or is disabled, receives
    no event: the Search button while [loading], the panel inputs while the
    panel is closed, a card or a type button that does not exist, the
    detail view while none is open.  A click inside the detail view stops
    propagating and reaches no handler. *)
Definition step (C : Component) (w : Browser) (e : Event) (c : Config)
    : Config :=
  let s := view c in
  match e with
  | QueryChanged v => onView (setSearchQuery v) c
  | QueryKeyPress e_key =>
      if bool_decide (e_key = lit "Enter") then callHandleSearch C w c else c
  | TypeClicked i =>
      match searchTypes !! i with
      | Some value => onView (setSearchType value) c
      | None => c
      end
  | FiltersClicked => onView (setShowFilters (negb (showFilters s))) c
  | SearchClicked => if loading s then c else callHandleSearch C w c
  | HasEbookChanged checked =>
      if showFilters s then
        onView (setFilters {| hasEbook := checked;
                              yearFrom := yearFrom (filters s);
                              yearTo := yearTo (filters s) |}) c
      else c
  | YearFromChanged v =>
      if showFilters s then
        onView (setFilters {| hasEbook := hasEbook (filters s);
                              yearFrom := v;
                              yearTo := yearTo (filters s) |}) c
      else c
  | YearToChanged v =>
      if showFilters s then
        onView (setFilters {| hasEbook := hasEbook (filters s);
                              yearFrom := yearFrom (filters s);
                              yearTo := v |}) c
      else c
  | CardClicked i =>
      match books s !! i with
      | Some book => onView (setSelectedBook (Some book)) c
      | None => c
      end
  | ModalContentClicked => c
  | ModalClosed =>
      match selectedBook s with
      | Some _ => onView (setSelectedBook None) c
      | None => c
      end
  | ResponseArrived i data =>
      match inflight c !! i with
      | Some (f, _) =>
          {| view := c_resume C f data s; inflight := delete i (inflight c) |}
      | None => c
      end
  end.

(** A sequence of events, oldest first. *)
Definition run (C : Component) (w : Browser) (events : list Event)
    (c : Config) : Config :=
  fold_left (λ c e, step C w e c) events c.

Definition reachable (C : Component) (w : Browser) (c : Config) : Prop :=
  ∃ events, c = run C w events initialConfig.

(** Does the event call [handleSearch] and get past its guard? *)
Definition startsSearch (e : Event) (c : Config) : bool :=
  match e with
  | QueryKeyPress e_key =>
      bool_decide (e_key = lit "Enter")
      && truthy_string (trim (searchQuery (view c)))
  | SearchClicked =>
      negb (loading (view c)) && truthy_string (trim (searchQuery (view c)))
  | _ => false
  end.

(** No search is started while another one is pending. *)
Fixpoint noOverlap (C : Component) (w : Browser) (events : list Event)
    (c : Config) : Prop :=
  match events with
  | [] => True
  | e :: rest =>
      (startsSearch e c = true → inflight c = [])
      ∧ noOverlap C w rest (step C w e c)
  end.

(** A configuration in which a search for "dune" is pending. *)
Definition duneTyped : list Event :=
  [QueryChanged (lit "dune"); QueryKeyPress (lit "Enter")].

(** A request of the form the search endpoint expects: one of the three
    fields, an encoded query, and the cap of twenty records. *)
Definition wellFormedUrl (w : Browser) (url : js_string) : Prop :=
  ∃ field query q,
    field ∈ searchTypes
    ∧ trim query ≠ []
    ∧ encodeURIComponent w query = Some q
    ∧ url = searchUrl field q.

(** What holds of a configuration when searches do not overlap: at most one
    request is pending; while it is, the indicator is on and the screen
    shows neither results nor a message; when none is, the indicator is
    off and results and message are not on screen together. *)
Definition orderly (c : Config) : Prop :=
  (length (inflight c) ≤ 1)%nat
  ∧ (inflight c ≠ [] →
     loading (view c) = true ∧ books (view c) = [] ∧ error (view c) = [])
  ∧ (inflight c = [] →
     loading (view c) = false
     ∧ (error (view c) = [] ∨ books (view c) = [])).

(** Enter pressed twice on the same query, then a response with records,
    then a failure. *)
Definition twiceThenMixed (q : js_string) (docs : list Book) : list Event :=
  [QueryChanged q; QueryKeyPress (lit "Enter"); QueryKeyPress (lit "Enter");
   ResponseArrived 0 (Resolved (Some docs)); ResponseArrived 0 Rejected].

(** A search for [a], then one for [b] before the first response; the
    response for [b] arrives first. *)
Definition staleArrival (a b : js_string) (docsA docsB : list Book)
    : list Event :=
  [QueryChanged a; QueryKeyPress (lit "Enter");
   QueryChanged b; QueryKeyPress (lit "Enter");
   ResponseArrived 1 (Resolved (Some docsB));
   ResponseArrived 0 (Resolved (Some docsA))].

(** One search for "dune" that completes with one record before anything
    else happens. *)
Definition duneFound : list Event :=
  duneTyped ++ [ResponseArrived 0 (Resolved (Some [dune]));
                CardClicked 0; ModalClosed].

(** A configuration reached by a sequence of events in which no search
    was started while another one was pending. *)
Definition reachedOrderly (C : Component) (w : Browser) (c : Config) : Prop :=
  ∃ events, noOverlap C w events initialConfig
            ∧ c = run C w events initialConfig.

(** The eBook filter switched on, Enter pressed twice on "dune", and a
    failure as the first response: the second request is still pending. *)
Definition failedWhilePending : list Event :=
  [FiltersClicked; HasEbookChanged true; QueryChanged (lit "dune");
   QueryKeyPress (lit "Enter"); QueryKeyPress (lit "Enter");
   ResponseArrived 0 Rejected].

(** Enter pressed twice on "dune" and records as the first response: the
    second request is still pending. *)
Definition foundWhilePending : list Event :=
  [QueryChanged (lit "dune"); QueryKeyPress (lit "Enter");
   QueryKeyPress (lit "Enter"); ResponseArrived 0 (Resolved (Some [dune]))].

(** A browser whose encoder never throws; its answers play no part where
    responses arrive as events. *)
Definition plainBrowser : Browser := answering Rejected.

(** The eBook filter switched on and one search for "dune" pending. *)
Definition ebookSearchPending : list Event :=
  [FiltersClicked; HasEbookChanged true; QueryChanged (lit "dune");
   QueryKeyPress (lit "Enter")].

(** * Properties *)

(** ** Built-ins on sample inputs *)

Example parseInt_1965 : parseInt (lit "1965") = Num 1965.
Proof. reflexivity. Qed.
Example parseInt_neg : parseInt (lit "  -5abc") = Num (-5).
Proof. reflexivity. Qed.
Example parseInt_hex : parseInt (lit "0x1F") = Num 31.
Proof. reflexivity. Qed.
Example parseInt_dot : parseInt (lit ".5") = NaN.
Proof. reflexivity. Qed.
Example parseInt_0x : parseInt (lit "0x") = NaN.
Proof. reflexivity. Qed.
Example parseInt_e : parseInt (lit "1e3") = Num 1.
Proof. reflexivity. Qed.
Example parseInt_empty : parseInt (lit "") = NaN.
Proof. reflexivity. Qed.
Example isWhiteSpace_samples :
  map isWhiteSpace [32; 9; 10; 160; 8200; 12288; 65279; 65; 48; 6158; 8203]%N
  = [true; true; true; true; true; true; true; false; false; false; false].
Proof. reflexivity. Qed.
Example trim_sample : trim (lit "  dune rising ") = lit "dune rising".
Proof. reflexivity. Qed.
Example toString_samples :
  toString 0 = lit "0" ∧ toString 1965 = lit "1965" ∧ toString (-5) = lit "-5".
Proof. repeat split. Qed.

(** ** Shared facts *)

Lemma trimStart_nil_iff (s : js_string) :
  trimStart s = [] ↔ Forall (λ c, isWhiteSpace c = true) s.
Proof.
  induction s as [|c r IH]; simpl.
  - split; [constructor | reflexivity].
  - destruct (isWhiteSpace c) eqn:Hc.
    + rewrite IH. split.
      * intros Hr. by constructor.
      * by inversion 1.
    + split; [discriminate |].
      inversion 1; congruence.
Qed.

Lemma trimStart_head (s : js_string) (c : N) (r : js_string) :
  trimStart s = c :: r → isWhiteSpace c = false.
Proof.
  induction s as [|d t IH]; simpl; [discriminate |].
  destruct (isWhiteSpace d) eqn:Hd; [exact IH |].
  intros [= <- _]. exact Hd.
Qed.

(** [trim] leaves nothing exactly when every code unit is white space. *)
Lemma trim_nil_iff (s : js_string) :
  trim s = [] ↔ Forall (λ c, isWhiteSpace c = true) s.
Proof.
  unfold trim, trimEnd. split.
  - intros H. apply trimStart_nil_iff.
    destruct (trimStart s) as [|c r] eqn:Hs; [reflexivity |].
    exfalso.
    assert (Hrev : trimStart (rev (c :: r)) = []).
    { apply (f_equal (@rev N)) in H. by rewrite rev_involutive in H. }
    apply trimStart_nil_iff in Hrev.
    rewrite Forall_forall in Hrev.
    pose proof (Hrev c) as Hc.
    rewrite (trimStart_head _ _ _ Hs) in Hc.
    enough (true = false) by discriminate. symmetry. apply Hc.
    apply list_elem_of_In, (proj1 (in_rev _ _)). by left.
  - intros H. apply trimStart_nil_iff in H. by rewrite H.
Qed.

Lemma truthy_string_false (s : js_string) : truthy_string s = false ↔ s = [].
Proof. by destruct s. Qed.

Lemma truthy_string_true (s : js_string) : truthy_string s = true ↔ s ≠ [].
Proof. by destruct s. Qed.

Lemma strict_eq_true (x : option js_string) (s : js_string) :
  strict_eq x s = true ↔ x = Some s.
Proof. unfold strict_eq. apply bool_decide_eq_true. Qed.

(** The filter stage is the same function in the two components. *)
Lemma filteredBooks_same (docs : list Book) (f : Filters) :
  Books.filteredBooks docs f = BookFinder.filteredBooks docs f.
Proof. reflexivity. Qed.

Lemma ebook_pred_spec (book : Book) :
  Is_true (strict_eq (ebook_access book) (lit "borrowable")
           || strict_eq (ebook_access book) (lit "public"))
  ↔ ebookP book.
Proof.
  unfold ebookP. rewrite orb_True, !Is_true_true, !strict_eq_true. tauto.
Qed.

Lemma from_pred_spec (f : Filters) (book : Book) :
  Is_true (truthy_number (first_publish_year book)
           && js_ge (first_publish_year book) (parseInt (yearFrom f)))
  ↔ fromP f book.
Proof.
  unfold fromP. rewrite andb_True, !Is_true_true.
  destruct (first_publish_year book) as [y|]; simpl.
  - destruct (parseInt (yearFrom f)) as [|n]; simpl.
    + split; [intros [_ ?]; discriminate | intros (?&?&_&_&?&_); discriminate].
    + rewrite negb_true_iff, Z.eqb_neq, Z.leb_le. split.
      * intros [? ?]. by exists y, n.
      * intros (y'&n'&[= <-]&?&[= <-]&?). split; assumption.
  - split; [intros [? _]; discriminate | intros (?&?&?&_); discriminate].
Qed.

Lemma to_pred_spec (f : Filters) (book : Book) :
  Is_true (truthy_number (first_publish_year book)
           && js_le (first_publish_year book) (parseInt (yearTo f)))
  ↔ toP f book.
Proof.
  unfold toP. rewrite andb_True, !Is_true_true.
  destruct (first_publish_year book) as [y|]; simpl.
  - destruct (parseInt (yearTo f)) as [|n]; simpl.
    + split; [intros [_ ?]; discriminate | intros (?&?&_&_&?&_); discriminate].
    + rewrite negb_true_iff, Z.eqb_neq, Z.leb_le. split.
      * intros [? ?]. by exists y, n.
      * intros (y'&n'&[= <-]&?&[= <-]&?). split; assumption.
  - split; [intros [? _]; discriminate | intros (?&?&?&_); discriminate].
Qed.

(** Membership in the output of the filter stage: the record is in the
    input and passes each filter that is active. *)
Lemma elem_of_filteredBooks (docs : list Book) (f : Filters) (book : Book) :
  book ∈ BookFinder.filteredBooks docs f ↔
    book ∈ docs
    ∧ (hasEbook f = true → ebookP book)
    ∧ (yearFrom f ≠ [] → fromP f book)
    ∧ (yearTo f ≠ [] → toP f book).
Proof.
  unfold BookFinder.filteredBooks.
  destruct (hasEbook f);
    destruct (yearFrom f) as [|a yf] eqn:Hyf;
    destruct (yearTo f) as [|b yt] eqn:Hyt; simpl;
    rewrite ?list_elem_of_filter, ?ebook_pred_spec;
    rewrite <- ?Hyf, <- ?Hyt, ?from_pred_spec, ?to_pred_spec;
    rewrite ?Hyf, ?Hyt; intuition congruence.
Qed.

(** The two filter stages are the same term; a record in the output
    yields what each active filter demands. *)
Ltac both_components :=
  change Books.filteredBooks with BookFinder.filteredBooks.

Tactic Notation "kept" hyp(Hin) "as" ident(Hebook) ident(Hfrom) ident(Hto) :=
  apply elem_of_filteredBooks in Hin as (_ & Hebook & Hfrom & Hto).

Lemma filteredBooks_sublist (docs : list Book) (f : Filters) :
  BookFinder.filteredBooks docs f `sublist_of` docs.
Proof.
  unfold BookFinder.filteredBooks.
  destruct (hasEbook f), (truthy_string (yearFrom f)),
    (truthy_string (yearTo f));
    repeat (etrans; [apply sublist_filter; apply _ |]); reflexivity.
Qed.

(** ** The filter stage *)

(** C2. Whatever the criteria, the filter stage returns a sublist of its
    input (same order, nothing added); with the initial criteria, where no
    filter is active, it returns the input itself.  Holds for both
    components. *)
Theorem filter_stage_narrows (docs : list Book) (f : Filters) :
  BookFinder.filteredBooks docs f `sublist_of` docs
  ∧ Books.filteredBooks docs f `sublist_of` docs
  ∧ BookFinder.filteredBooks docs
      {| hasEbook := false; yearFrom := lit ""; yearTo := lit "" |} = docs
  ∧ Books.filteredBooks docs
      {| hasEbook := false; yearFrom := lit ""; yearTo := lit "" |} = docs.
Proof.
  both_components.
  split; [apply filteredBooks_sublist |].
  split; [apply filteredBooks_sublist |].
  split; reflexivity.
Qed.

(** C3. With the eBook filter active, the filter stage keeps a record of
    the input exactly when its [ebook_access] is the string [borrowable]
    or the string [public]: with the eBook filter alone the output is the
    input restricted to those records, and whatever the year bounds are,
    no other record, in particular none without [ebook_access], is in the
    output.  Holds for both components. *)
Theorem hasEbook_keeps_borrowable_or_public
    (docs : list Book) (yf yt : js_string) (book : Book) :
  (book ∈ BookFinder.filteredBooks docs ebookOnly ↔
     book ∈ docs ∧ (ebook_access book = Some (lit "borrowable")
                    ∨ ebook_access book = Some (lit "public")))
  ∧ (book ∈ Books.filteredBooks docs ebookOnly ↔
     book ∈ docs ∧ (ebook_access book = Some (lit "borrowable")
                    ∨ ebook_access book = Some (lit "public")))
  ∧ (book ∈ BookFinder.filteredBooks docs
              {| hasEbook := true; yearFrom := yf; yearTo := yt |} →
     ebook_access book = Some (lit "borrowable")
     ∨ ebook_access book = Some (lit "public"))
  ∧ (book ∈ Books.filteredBooks docs
              {| hasEbook := true; yearFrom := yf; yearTo := yt |} →
     ebook_access book = Some (lit "borrowable")
     ∨ ebook_access book = Some (lit "public"))
  ∧ (ebook_access book = None →
     (book ∉ BookFinder.filteredBooks docs
               {| hasEbook := true; yearFrom := yf; yearTo := yt |})
     ∧ (book ∉ Books.filteredBooks docs
                 {| hasEbook := true; yearFrom := yf; yearTo := yt |})).
Proof.
  both_components.
  set (any := {| hasEbook := true; yearFrom := yf; yearTo := yt |}).
  assert (Honly : book ∈ BookFinder.filteredBooks docs ebookOnly ↔
            book ∈ docs ∧ ebookP book).
  { rewrite elem_of_filteredBooks. simpl. intuition congruence. }
  assert (Hany : book ∈ BookFinder.filteredBooks docs any → ebookP book).
  { rewrite elem_of_filteredBooks. simpl. intuition. }
  unfold ebookP in *.
  repeat split; try tauto.
  all: intros Hin; apply Hany in Hin; destruct Hin; congruence.
Qed.

(** C4. A record that is in the output while the [yearFrom] filter is
    active has a [first_publish_year], and it is at least the parsed
    [yearFrom]; likewise at most the parsed [yearTo] while the [yearTo]
    filter is active.  A record without [first_publish_year] is dropped as
    soon as one year filter is active.  When both bounds parse and the
    lower one exceeds the upper one the output is empty.  Holds for both
    components. *)
Theorem year_filters_bound (docs : list Book) (f : Filters) :
  (∀ book, book ∈ BookFinder.filteredBooks docs f ∨
           book ∈ Books.filteredBooks docs f →
     (yearFrom f ≠ [] →
        ∃ y n, first_publish_year book = Some y
               ∧ parseInt (yearFrom f) = Num n ∧ n ≤ y)
     ∧ (yearTo f ≠ [] →
        ∃ y n, first_publish_year book = Some y
               ∧ parseInt (yearTo f) = Num n ∧ y ≤ n))
  ∧ (∀ book, first_publish_year book = None →
       yearFrom f ≠ [] ∨ yearTo f ≠ [] →
       (book ∉ BookFinder.filteredBooks docs f)
       ∧ (book ∉ Books.filteredBooks docs f))
  ∧ (∀ lo hi, parseInt (yearFrom f) = Num lo → parseInt (yearTo f) = Num hi →
       lo > hi →
       BookFinder.filteredBooks docs f = []
       ∧ Books.filteredBooks docs f = []).
Proof.
  both_components.
  split; [| split].
  - intros book Hin.
    assert (Hin' : book ∈ BookFinder.filteredBooks docs f) by tauto.
    kept Hin' as Hebook Hfrom Hto.
    split.
    + intros Hyf. destruct (Hfrom Hyf) as (y & n & ? & _ & ? & ?).
      by exists y, n.
    + intros Hyt. destruct (Hto Hyt) as (y & n & ? & _ & ? & ?).
      by exists y, n.
  - intros book Hnone Hactive.
    enough (book ∉ BookFinder.filteredBooks docs f) by tauto.
    intros Hin. kept Hin as Hebook Hfrom Hto.
    destruct Hactive as [Hyf | Hyt].
    + destruct (Hfrom Hyf) as (? & ? & ? & _); congruence.
    + destruct (Hto Hyt) as (? & ? & ? & _); congruence.
  - intros lo hi Hlo Hhi Hinv.
    enough (BookFinder.filteredBooks docs f = []) by tauto.
    apply elem_of_nil_inv. intros book Hin.
    kept Hin as Hebook Hfrom Hto.
    assert (Hyf : yearFrom f ≠ []) by (intros E; rewrite E in Hlo; discriminate).
    assert (Hyt : yearTo f ≠ []) by (intros E; rewrite E in Hhi; discriminate).
    destruct (Hfrom Hyf) as (y & n & Hy & _ & Hn & ?).
    destruct (Hto Hyt) as (y' & n' & Hy' & _ & Hn' & ?).
    assert (y' = y) by congruence. assert (n = lo) by congruence.
    assert (n' = hi) by congruence. lia.
Qed.

Lemma year_filters_bound_witness :
  parseInt (yearFrom inverted) = Num 1965
  ∧ parseInt (yearTo inverted) = Num 1964
  ∧ BookFinder.filteredBooks [dune; goodOmens; bare] inverted = []
  ∧ Books.filteredBooks [dune; goodOmens; bare] inverted = [].
Proof.
  split; [reflexivity |]. split; [reflexivity |].
  apply (proj2 (proj2 (year_filters_bound [dune; goodOmens; bare] inverted))
           1965 1964); [reflexivity | reflexivity | lia].
Defined.

(** C5. When a year filter is active and its text does not parse (the
    result of [parseInt] is [NaN]), the output of the filter stage is
    empty, whatever the input.  Holds for both components. *)
Theorem unparsable_bound_excludes_all (docs : list Book) (f : Filters) :
  (yearFrom f ≠ [] ∧ parseInt (yearFrom f) = NaN)
  ∨ (yearTo f ≠ [] ∧ parseInt (yearTo f) = NaN) →
  BookFinder.filteredBooks docs f = [] ∧ Books.filteredBooks docs f = [].
Proof.
  intros Hbad. both_components.
  enough (BookFinder.filteredBooks docs f = []) by tauto.
  apply elem_of_nil_inv. intros book Hin.
  kept Hin as Hebook Hfrom Hto.
  destruct Hbad as [[Hyf Hnan] | [Hyt Hnan]].
  - destruct (Hfrom Hyf) as (? & ? & _ & _ & ? & _); congruence.
  - destruct (Hto Hyt) as (? & ? & _ & _ & ? & _); congruence.
Qed.

Lemma unparsable_bound_excludes_all_witness :
  ((yearFrom fromHalf ≠ [] ∧ parseInt (yearFrom fromHalf) = NaN)
   ∨ (yearTo fromHalf ≠ [] ∧ parseInt (yearTo fromHalf) = NaN))
  ∧ BookFinder.filteredBooks [dune; goodOmens] fromHalf = []
  ∧ Books.filteredBooks [dune; goodOmens] fromHalf = [].
Proof.
  assert (H : (yearFrom fromHalf ≠ [] ∧ parseInt (yearFrom fromHalf) = NaN)
              ∨ (yearTo fromHalf ≠ [] ∧ parseInt (yearTo fromHalf) = NaN)).
  { left. split; [discriminate | reflexivity]. }
  split; [exact H |].
  exact (unparsable_bound_excludes_all [dune; goodOmens] fromHalf H).
Defined.

(** C9. A record whose [first_publish_year] is the number [0] is dropped
    by any active year filter, whatever the bound: the presence test is the
    truthiness of the number, and [0] is falsy.  Holds for both
    components. *)
Theorem year_zero_dropped (docs : list Book) (f : Filters) (book : Book) :
  first_publish_year book = Some 0 →
  yearFrom f ≠ [] ∨ yearTo f ≠ [] →
  (book ∉ BookFinder.filteredBooks docs f)
  ∧ (book ∉ Books.filteredBooks docs f).
Proof.
  intros Hzero Hactive.
  both_components.
  enough (book ∉ BookFinder.filteredBooks docs f) by tauto.
  intros Hin. kept Hin as Hebook Hfrom Hto.
  destruct Hactive as [Hyf | Hyt].
  - destruct (Hfrom Hyf) as (y & ? & ? & ? & _); congruence.
  - destruct (Hto Hyt) as (y & ? & ? & ? & _); congruence.
Qed.

Lemma year_zero_dropped_witness :
  first_publish_year yearZero = Some 0
  ∧ (yearFrom fromMinus5 ≠ [] ∨ yearTo fromMinus5 ≠ [])
  ∧ js_ge (first_publish_year yearZero) (parseInt (yearFrom fromMinus5)) = true
  ∧ (yearZero ∉ BookFinder.filteredBooks [yearZero] fromMinus5)
  ∧ (yearZero ∉ Books.filteredBooks [yearZero] fromMinus5).
Proof.
  assert (Hactive : yearFrom fromMinus5 ≠ [] ∨ yearTo fromMinus5 ≠ [])
    by (left; discriminate).
  split; [reflexivity |]. split; [exact Hactive |]. split; [reflexivity |].
  exact (year_zero_dropped [yearZero] fromMinus5 yearZero eq_refl Hactive).
Defined.

(** The filter stage on sample inputs. *)
Example filter_dune_from_1965 :
  BookFinder.filteredBooks [dune; goodOmens; bare; yearZero]
    {| hasEbook := false; yearFrom := lit "1965"; yearTo := lit "" |}
  = [dune; goodOmens].
Proof. reflexivity. Qed.

Example filter_ebooks_until_1970 :
  Books.filteredBooks [dune; goodOmens; bare; yearZero]
    {| hasEbook := true; yearFrom := lit ""; yearTo := lit "1970" |}
  = [dune].
Proof. reflexivity. Qed.

(** ** The search action *)

Lemma handleSearch_start_blank (w : Browser) (s : State) :
  Forall (λ c, isWhiteSpace c = true) (searchQuery s) →
  BookFinder.handleSearch_start w s = NoOp
  ∧ Books.handleSearch_start w s = NoOp.
Proof.
  intros Hws. apply trim_nil_iff in Hws.
  unfold BookFinder.handleSearch_start, Books.handleSearch_start.
  by rewrite Hws.
Qed.

(** What a suspended call has done so far, and that the two components
    suspend alike. *)
Lemma handleSearch_start_awaiting (w : Browser) (s s1 : State) (url : js_string) :
  BookFinder.handleSearch_start w s = Awaiting s1 url →
  trim (searchQuery s) ≠ []
  ∧ s1 = setBooks [] (setError (lit "") (setLoading true s))
  ∧ Books.handleSearch_start w s = Awaiting s1 url.
Proof.
  unfold BookFinder.handleSearch_start, Books.handleSearch_start.
  destruct (trim (searchQuery s)) as [|c r]; simpl; [discriminate |].
  destruct (encodeURIComponent w (searchQuery s)); [| discriminate].
  intros [= <- <-]. by repeat split.
Qed.

Lemma handleSearch_awaiting (w : Browser) (s s1 : State) (url : js_string) :
  BookFinder.handleSearch_start w s = Awaiting s1 url →
  BookFinder.handleSearch w s
  = (BookFinder.handleSearch_resume (filters s) (fetch_json w url) s1, [url])
  ∧ Books.handleSearch w s
  = (Books.handleSearch_resume (filters s) (fetch_json w url) s1, [url]).
Proof.
  intros Hstart.
  destruct (handleSearch_start_awaiting _ _ _ _ Hstart) as (_ & _ & Hstart').
  unfold BookFinder.handleSearch, Books.handleSearch.
  by rewrite Hstart, Hstart'.
Qed.

(** C6. When the query text is empty or made of white space only, the
    search action sends no request and returns the state it was given, so
    that no field changes; the same holds when it is invoked through the
    Enter key.  Holds for both components. *)
Theorem blank_query_is_noop (w : Browser) (s : State) :
  Forall (λ c, isWhiteSpace c = true) (searchQuery s) →
  BookFinder.handleSearch w s = (s, [])
  ∧ Books.handleSearch w s = (s, [])
  ∧ BookFinder.handleKeyPress w (lit "Enter") s = (s, [])
  ∧ Books.handleKeyPress w (lit "Enter") s = (s, []).
Proof.
  intros Hws. destruct (handleSearch_start_blank w s Hws) as [H1 H2].
  unfold BookFinder.handleKeyPress, Books.handleKeyPress.
  unfold BookFinder.handleSearch, Books.handleSearch.
  rewrite H1, H2. by repeat split.
Qed.

Lemma blank_query_is_noop_witness :
  Forall (λ c, isWhiteSpace c = true) (searchQuery midSession)
  ∧ BookFinder.handleSearch (answering (Resolved (Some [bare]))) midSession
    = (midSession, [])
  ∧ Books.handleSearch (answering (Resolved (Some [bare]))) midSession
    = (midSession, []).
Proof.
  assert (Hws : Forall (λ c, isWhiteSpace c = true) (searchQuery midSession)).
  { repeat constructor. }
  split; [exact Hws |].
  destruct (blank_query_is_noop (answering (Resolved (Some [bare])))
              midSession Hws) as (H1 & H2 & _).
  split; [exact H1 | exact H2].
Defined.

(** One call of [handleSearch] taken in isolation, that is, run from its
    start to its end with no other event in between.  Such a call, when
    the query is not blank, ends with the loading flag off.  The two
    messages are different texts.  When the request fails (or encoding the
    query throws before it is sent) the message is the "failed" one; when
    the response has no [docs] or an empty [docs] the message is the
    "no results" one; each message appears in no other case, and whenever
    a message is set the result list is empty.  For the component, where
    events interleave, see the section on searches that do not overlap.
    Stated for the typed component. *)
Theorem search_error_outcomes (w : Browser) (s : State) :
  trim (searchQuery s) ≠ [] →
  BookFinder.handleSearch_start w s ≠ NoOp
  ∧ loading (BookFinder.handleSearch w s).1 = false
  ∧ BookFinder.failedMessage ≠ BookFinder.noBooksMessage
  ∧ (∀ s1, BookFinder.handleSearch_start w s = Aborted s1 →
       BookFinder.handleSearch w s = (s1, [])
       ∧ error s1 = BookFinder.failedMessage ∧ books s1 = [])
  ∧ (∀ s1 url, BookFinder.handleSearch_start w s = Awaiting s1 url →
       (fetch_json w url = Rejected ↔
          error (BookFinder.handleSearch w s).1 = BookFinder.failedMessage)
       ∧ (fetch_json w url = Resolved None
          ∨ fetch_json w url = Resolved (Some []) ↔
          error (BookFinder.handleSearch w s).1 = BookFinder.noBooksMessage)
       ∧ (error (BookFinder.handleSearch w s).1 ≠ [] →
          books (BookFinder.handleSearch w s).1 = [])).
Proof.
  intros Hq.
  split.
  { unfold BookFinder.handleSearch_start.
    destruct (trim (searchQuery s)); [done |]. simpl.
    by destruct (encodeURIComponent w (searchQuery s)). }
  split.
  { unfold BookFinder.handleSearch, BookFinder.handleSearch_start.
    destruct (trim (searchQuery s)); [done |]. simpl.
    by destruct (encodeURIComponent w (searchQuery s)). }
  split; [discriminate |].
  split.
  { intros s1. unfold BookFinder.handleSearch, BookFinder.handleSearch_start.
    destruct (trim (searchQuery s)); [done |]. simpl.
    destruct (encodeURIComponent w (searchQuery s)); [discriminate |].
    intros [= <-]. by repeat split. }
  intros s1 url Hstart.
  destruct (handleSearch_awaiting _ _ _ _ Hstart) as [-> _].
  destruct (handleSearch_start_awaiting _ _ _ _ Hstart) as (_ & -> & _).
  unfold BookFinder.handleSearch_resume.
  destruct (fetch_json w url) as [|[[|d docs]|]]; simpl.
  - repeat split; try done; intros [? | ?]; discriminate.
  - repeat split; try done; try discriminate. by right.
  - repeat split; try done; try discriminate.
    intros [? | ?]; discriminate.
  - repeat split; try done; try discriminate. by left.
Qed.

Lemma search_error_outcomes_witness :
  trim (searchQuery (withQuery (lit "dune") midSession)) ≠ []
  ∧ loading (BookFinder.handleSearch (answering Rejected)
               (withQuery (lit "dune") midSession)).1 = false
  ∧ error (BookFinder.handleSearch (answering Rejected)
             (withQuery (lit "dune") midSession)).1
    = BookFinder.failedMessage
  ∧ books (BookFinder.handleSearch (answering Rejected)
             (withQuery (lit "dune") midSession)).1 = [].
Proof.
  assert (Hq : trim (searchQuery (withQuery (lit "dune") midSession)) ≠ [])
    by discriminate.
  split; [exact Hq |].
  destruct (search_error_outcomes (answering Rejected)
              (withQuery (lit "dune") midSession) Hq)
    as (_ & Hload & _ & _ & Hawait).
  destruct (Hawait _ _ eq_refl) as (Hrej & _ & Hbooks).
  split; [exact Hload |].
  split; [exact (proj1 Hrej eq_refl) |].
  apply Hbooks. rewrite (proj1 Hrej eq_refl). discriminate.
Defined.

(** One call of [handleSearch] taken in isolation: when the response
    carries a non-empty [docs] and the active filters remove every record
    of it, the call ends with an empty result list, the loading flag off
    and the empty message: nothing is shown in the error banner, neither
    the "no results" nor the "failed" text.  The same call with an empty
    [docs] would show the "no results" text.  Holds for both components. *)
Theorem all_filtered_out_is_silent
    (w : Browser) (s s1 : State) (url : js_string) (docs : list Book) :
  BookFinder.handleSearch_start w s = Awaiting s1 url →
  fetch_json w url = Resolved (Some docs) →
  docs ≠ [] →
  BookFinder.filteredBooks docs (filters s) = [] →
  (books (BookFinder.handleSearch w s).1 = []
   ∧ loading (BookFinder.handleSearch w s).1 = false
   ∧ error (BookFinder.handleSearch w s).1 = []
   ∧ BookFinder.errorBanner (BookFinder.handleSearch w s).1 = None)
  ∧ (books (Books.handleSearch w s).1 = []
     ∧ loading (Books.handleSearch w s).1 = false
     ∧ error (Books.handleSearch w s).1 = []
     ∧ Books.errorBanner (Books.handleSearch w s).1 = None)
  ∧ BookFinder.errorBanner
      (BookFinder.handleSearch_resume (filters s) (Resolved (Some [])) s1)
    = Some BookFinder.noBooksMessage
  ∧ Books.errorBanner
      (Books.handleSearch_resume (filters s) (Resolved (Some [])) s1)
    = Some Books.noBooksMessage.
Proof.
  intros Hstart Hresp Hdocs Hnone.
  destruct (handleSearch_awaiting _ _ _ _ Hstart) as [-> ->].
  destruct (handleSearch_start_awaiting _ _ _ _ Hstart) as (_ & -> & _).
  rewrite Hresp.
  unfold BookFinder.handleSearch_resume, Books.handleSearch_resume.
  both_components.
  rewrite Hnone.
  destruct docs as [|d docs]; [done |]. simpl.
  by repeat split.
Qed.

Lemma all_filtered_out_is_silent_witness :
  BookFinder.filteredBooks [bare; goodOmens] ebookOnly = []
  ∧ books (BookFinder.handleSearch
             (answering (Resolved (Some [bare; goodOmens])))
             (withQuery (lit "dune") midSession)).1 = []
  ∧ BookFinder.errorBanner
      (BookFinder.handleSearch
         (answering (Resolved (Some [bare; goodOmens])))
         (withQuery (lit "dune") midSession)).1 = None.
Proof.
  split; [reflexivity |].
  destruct (all_filtered_out_is_silent
              (answering (Resolved (Some [bare; goodOmens])))
              (withQuery (lit "dune") midSession) _ _ [bare; goodOmens]
              eq_refl eq_refl ltac:(discriminate) eq_refl)
    as ((Hbooks & _ & _ & Hbanner) & _).
  split; [exact Hbooks | exact Hbanner].
Defined.

(** The search action on sample inputs. *)
Example search_dune_url :
  (BookFinder.handleSearch (answering (Resolved (Some [dune; bare])))
     (withQuery (lit "dune") initialState)).2
  = [lit "https://openlibrary.org/search.json?title=dune&limit=20"].
Proof. reflexivity. Qed.

Example search_dune_result :
  books (Books.handleSearch (answering (Resolved (Some [dune; bare])))
           (withQuery (lit "dune") midSession)).1
  = [dune].
Proof. reflexivity. Qed.

Example search_pending :
  BookFinder.handleSearch_start (answering Rejected)
    (withQuery (lit "dune") midSession)
  = Awaiting
      {| searchQuery := lit "dune"; searchType := lit "author"; books := [];
         loading := true; error := lit ""; selectedBook := Some dune;
         filters := ebookOnly; showFilters := true |}
      (lit "https://openlibrary.org/search.json?author=dune&limit=20").
Proof. reflexivity. Qed.

(** ** Presentation *)

(** C8. The card of the typed component carries the eBook badge exactly
    when [ebook_access] is not the string [no_ebook], so a record without
    [ebook_access] has the badge; its detail view reads "Available" under
    the same condition.  The condition is weaker than the eBook filter:
    every record the filter keeps has the badge, and the record [bare],
    which has no [ebook_access], has the badge and is dropped by the
    filter. *)
Theorem ebook_badge_condition (book : Book) :
  (card_badge (BookFinder.BookCard book) = true ↔
     ebook_access book ≠ Some (lit "no_ebook"))
  ∧ (modal_ebook (BookFinder.BookModal book) = lit "Available" ↔
     ebook_access book ≠ Some (lit "no_ebook"))
  ∧ (ebook_access book = None →
     card_badge (BookFinder.BookCard book) = true)
  ∧ (book ∈ BookFinder.filteredBooks [book] ebookOnly →
     card_badge (BookFinder.BookCard book) = true)
  ∧ card_badge (BookFinder.BookCard bare) = true
  ∧ modal_ebook (BookFinder.BookModal bare) = lit "Available"
  ∧ bare ∉ BookFinder.filteredBooks [bare] ebookOnly.
Proof.
  assert (Hbadge : card_badge (BookFinder.BookCard book) = true ↔
            ebook_access book ≠ Some (lit "no_ebook")).
  { simpl. unfold strict_eq. rewrite negb_true_iff.
    apply bool_decide_eq_false. }
  split; [exact Hbadge |].
  split.
  { simpl. unfold strict_eq.
    destruct (bool_decide_reflect (ebook_access book = Some (lit "no_ebook")))
      as [Heq | Hne]; split; try done. }
  split; [intros Hnone; apply Hbadge; by rewrite Hnone |].
  split.
  { intros Hin. apply Hbadge.
    kept Hin as Hebook Hfrom Hto.
    destruct (Hebook eq_refl) as [-> | ->]; discriminate. }
  split; [reflexivity |]. split; [reflexivity |].
  intros Hin. kept Hin as Hebook Hfrom Hto.
  destruct (Hebook eq_refl); discriminate.
Qed.

(** The views of the sample records. *)
Example card_dune :
  BookFinder.BookCard dune
  = {| card_cover :=
         Some (lit "https://covers.openlibrary.org/b/id/11481354-M.jpg");
       card_title := lit "Dune"; card_authors := lit "Frank Herbert";
       card_year := CNum 1965; card_badge := true |}.
Proof. reflexivity. Qed.

Example card_bare :
  Books.BookCard bare
  = {| card_cover := None; card_title := lit "Untitled";
       card_authors := lit "Unknown Author";
       card_year := CText (lit "Unknown"); card_badge := true |}.
Proof. reflexivity. Qed.

Example modal_dune_language :
  modal_language (BookFinder.BookModal dune) = lit "ENG, FRE, GER"
  ∧ modal_language (Books.BookModal dune) = lit "ENG, FRE, GER, SPA".
Proof. split; reflexivity. Qed.

(** ** The two components compared *)

Lemma join_take_2 (a : list js_string) :
  join (lit ", ") (take 2 a) = join (lit ", ") a ↔ (length a ≤ 2)%nat.
Proof.
  destruct a as [|x [|y [|z r]]]; simpl; try (split; [lia | reflexivity]).
  split; [| lia]. intros H. apply (f_equal length) in H.
  rewrite !length_app in H. simpl in H. rewrite !length_app in H.
  simpl in H. lia.
Qed.

Lemma toUpperCase_nil_iff (s : js_string) : toUpperCase s = [] ↔ s = [].
Proof. by destruct s. Qed.

(** C1, as it stands, fails: on a record with three authors the typed card
    lists the first two and the untyped card lists all three; the typed
    detail view shows three of the four language codes of [dune] and its
    publishers, the untyped one all four codes and no publishers; the
    "failed" texts differ. *)
Lemma components_differ :
  card_authors (BookFinder.BookCard goodOmens)
    = lit "Terry Pratchett, Neil Gaiman"
  ∧ card_authors (Books.BookCard goodOmens)
    = lit "Terry Pratchett, Neil Gaiman, Craig Russell"
  ∧ card_authors (BookFinder.BookCard goodOmens)
    ≠ card_authors (Books.BookCard goodOmens)
  ∧ modal_language (BookFinder.BookModal dune)
    ≠ modal_language (Books.BookModal dune)
  ∧ modal_publishers (BookFinder.BookModal dune)
    ≠ modal_publishers (Books.BookModal dune)
  ∧ BookFinder.failedMessage ≠ Books.failedMessage.
Proof. repeat split; try reflexivity; discriminate. Qed.

(** C1, amended.  The two components compute the same filtered result
    set, send the same requests, and end a search with the same result
    list, the same loading flag and the same message, except that the text
    of the "failed" message differs; the "no results" text is the same.
    The card shows the same author list exactly for the records with at
    most two authors (or none).  The detail view shows the same language
    text for the records without [language] and for those with one to three
    codes whose joined text is not empty, and the same publisher display
    exactly for the records without publishers, the untyped component
    showing none. *)
Theorem components_agree_up_to
    (w : Browser) (s : State) (docs : list Book) (f : Filters) (book : Book) :
  Books.filteredBooks docs f = BookFinder.filteredBooks docs f
  ∧ (Books.handleSearch w s).2 = (BookFinder.handleSearch w s).2
  ∧ books (Books.handleSearch w s).1 = books (BookFinder.handleSearch w s).1
  ∧ loading (Books.handleSearch w s).1
    = loading (BookFinder.handleSearch w s).1
  ∧ (error (Books.handleSearch w s).1 = error (BookFinder.handleSearch w s).1
     ∨ (error (Books.handleSearch w s).1 = Books.failedMessage
        ∧ error (BookFinder.handleSearch w s).1 = BookFinder.failedMessage))
  ∧ Books.noBooksMessage = BookFinder.noBooksMessage
  ∧ (card_authors (Books.BookCard book)
       = card_authors (BookFinder.BookCard book) ↔
     ∀ a, author_name book = Some a → (length a ≤ 2)%nat)
  ∧ (language book = None
     ∨ (∃ l, language book = Some l ∧ (length l ≤ 3)%nat
             ∧ join (lit ", ") l ≠ []) →
     modal_language (Books.BookModal book)
       = modal_language (BookFinder.BookModal book))
  ∧ modal_publishers (Books.BookModal book) = None
  ∧ (modal_publishers (Books.BookModal book)
       = modal_publishers (BookFinder.BookModal book) ↔
     publisher book = None ∨ publisher book = Some []).
Proof.
  split; [reflexivity |].
  assert (Hsearch :
    (Books.handleSearch w s).2 = (BookFinder.handleSearch w s).2
    ∧ books (Books.handleSearch w s).1
      = books (BookFinder.handleSearch w s).1
    ∧ loading (Books.handleSearch w s).1
      = loading (BookFinder.handleSearch w s).1
    ∧ (error (Books.handleSearch w s).1
         = error (BookFinder.handleSearch w s).1
       ∨ (error (Books.handleSearch w s).1 = Books.failedMessage
          ∧ error (BookFinder.handleSearch w s).1
            = BookFinder.failedMessage))).
  { unfold Books.handleSearch, BookFinder.handleSearch,
      Books.handleSearch_start, BookFinder.handleSearch_start.
    destruct (trim (searchQuery s)); simpl; [by repeat split; try left |].
    destruct (encodeURIComponent w (searchQuery s)) as [q|]; simpl.
    - destruct (fetch_json w _) as [|[[|d l]|]]; simpl;
        repeat split; try (by left). by right.
    - repeat split. by right. }
  destruct Hsearch as (Hreq & Hbooks & Hload & Herr).
  repeat (split; [assumption || reflexivity |]).
  split.
  { simpl. destruct (author_name book) as [a|].
    - rewrite (symmetry_iff eq), join_take_2. split.
      + by intros Hlen ? [= <-].
      + intros Hall. by apply Hall.
    - split; [discriminate | reflexivity]. }
  split.
  { simpl. intros [-> | (l & -> & Hlen & Hne)]; [reflexivity |].
    rewrite (take_ge l 3 Hlen).
    destruct (toUpperCase (join (lit ", ") l)) eqn:Hup; [| reflexivity].
    exfalso. exact (Hne (proj1 (toUpperCase_nil_iff _) Hup)). }
  split; [reflexivity |].
  simpl. destruct (publisher book) as [[|x l]|]; simpl.
  - split; [by right | reflexivity].
  - split; [discriminate | intros [? | ?]; discriminate].
  - split; [by left | reflexivity].
Qed.

(** * Further properties of the code *)

(** ** The filter stage as a single pass *)

Lemma filter_all {A} (P : A → Prop) `{!∀ x, Decision (P x)} (l : list A) :
  (∀ x, P x) → filter P l = l.
Proof.
  intros HP. induction l as [|x l IH]; [done |].
  by rewrite filter_cons_True, IH.
Qed.

Lemma filter_sublist_mono {A} (P Q : A → Prop)
    `{!∀ x, Decision (P x), !∀ x, Decision (Q x)} (l : list A) :
  (∀ x, P x → Q x) → filter P l `sublist_of` filter Q l.
Proof.
  intros HPQ. induction l as [|x l IH]; [done |].
  destruct (decide (P x)) as [HP | HP].
  - rewrite !filter_cons_True by auto. by apply sublist_skip.
  - rewrite (filter_cons_False P) by done.
    destruct (decide (Q x)).
    + rewrite filter_cons_True by done. by apply sublist_cons.
    + by rewrite filter_cons_False.
Qed.

Lemma keeps_spec (f : Filters) (book : Book) :
  Is_true (keeps f book) ↔
    (hasEbook f = true → ebookP book)
    ∧ (yearFrom f ≠ [] → fromP f book)
    ∧ (yearTo f ≠ [] → toP f book).
Proof.
  unfold keeps.
  rewrite <- (ebook_pred_spec book), <- from_pred_spec, <- to_pred_spec.
  destruct (hasEbook f), (yearFrom f), (yearTo f); simpl;
    destruct (strict_eq _ _ || strict_eq _ _),
      (truthy_number _ && js_ge _ _), (truthy_number _ && js_le _ _);
    simpl; intuition (discriminate || congruence).
Qed.

(** The three successive filters amount to one filter by [keeps]. *)
Lemma filteredBooks_one_pass (docs : list Book) (f : Filters) :
  BookFinder.filteredBooks docs f = filter (λ book, Is_true (keeps f book)) docs.
Proof.
  unfold BookFinder.filteredBooks, keeps.
  destruct (hasEbook f), (truthy_string (yearFrom f)),
    (truthy_string (yearTo f)); simpl;
    rewrite ?list_filter_filter;
    try (apply list_filter_iff; intros book;
         rewrite ?andb_True, ?orb_True; simpl; tauto).
  symmetry. by apply filter_all.
Qed.

(** X1. Filtering twice changes nothing more, and two filter stages can
    be applied in either order: the three filters do not depend on their
    order of application.  Holds for both components. *)
Theorem filter_stage_idempotent_commutes (docs : list Book) (f g : Filters) :
  BookFinder.filteredBooks (BookFinder.filteredBooks docs f) f
    = BookFinder.filteredBooks docs f
  ∧ BookFinder.filteredBooks (BookFinder.filteredBooks docs f) g
    = BookFinder.filteredBooks (BookFinder.filteredBooks docs g) f
  ∧ Books.filteredBooks (Books.filteredBooks docs f) f
    = Books.filteredBooks docs f
  ∧ Books.filteredBooks (Books.filteredBooks docs f) g
    = Books.filteredBooks (Books.filteredBooks docs g) f.
Proof.
  both_components. rewrite !filteredBooks_one_pass, !list_filter_filter.
  assert (Hidem :
    filter (λ a, Is_true (keeps f a) ∧ Is_true (keeps f a)) docs
    = filter (λ book, Is_true (keeps f book)) docs)
    by (apply list_filter_iff; tauto).
  assert (Hcomm :
    filter (λ a, Is_true (keeps g a) ∧ Is_true (keeps f a)) docs
    = filter (λ a, Is_true (keeps f a) ∧ Is_true (keeps g a)) docs)
    by (apply list_filter_iff; tauto).
  by repeat split.
Qed.

(** X2. The filter stage decides record by record: the output for a
    concatenation is the concatenation of the outputs, and a record is in
    the output exactly when it is in the input and passes [keeps].  Holds
    for both components. *)
Theorem filter_stage_pointwise (l1 l2 : list Book) (f : Filters) (book : Book) :
  BookFinder.filteredBooks (l1 ++ l2) f
    = BookFinder.filteredBooks l1 f ++ BookFinder.filteredBooks l2 f
  ∧ Books.filteredBooks (l1 ++ l2) f
    = Books.filteredBooks l1 f ++ Books.filteredBooks l2 f
  ∧ (book ∈ BookFinder.filteredBooks l1 f ↔ book ∈ l1 ∧ keeps f book = true)
  ∧ (book ∈ Books.filteredBooks l1 f ↔ book ∈ l1 ∧ keeps f book = true).
Proof.
  both_components. rewrite !filteredBooks_one_pass, filter_app.
  rewrite list_elem_of_filter, Is_true_true. tauto.
Qed.

(** X3. Tightening the criteria narrows the output: switching the eBook
    filter on, activating a year filter, raising a parsed lower bound or
    lowering a parsed upper bound each give a sublist of the previous
    output.  Holds for both components. *)
Theorem tightening_narrows (docs : list Book) (e : bool) (yf yt : js_string) :
  BookFinder.filteredBooks docs
      {| hasEbook := true; yearFrom := yf; yearTo := yt |}
    `sublist_of` BookFinder.filteredBooks docs
      {| hasEbook := e; yearFrom := yf; yearTo := yt |}
  ∧ BookFinder.filteredBooks docs
      {| hasEbook := e; yearFrom := yf; yearTo := yt |}
    `sublist_of` BookFinder.filteredBooks docs
      {| hasEbook := e; yearFrom := lit ""; yearTo := yt |}
  ∧ BookFinder.filteredBooks docs
      {| hasEbook := e; yearFrom := yf; yearTo := yt |}
    `sublist_of` BookFinder.filteredBooks docs
      {| hasEbook := e; yearFrom := yf; yearTo := lit "" |}
  ∧ (∀ yf' lo lo',
       parseInt yf = Num lo → parseInt yf' = Num lo' → lo ≤ lo' →
       BookFinder.filteredBooks docs
         {| hasEbook := e; yearFrom := yf'; yearTo := yt |}
       `sublist_of` BookFinder.filteredBooks docs
         {| hasEbook := e; yearFrom := yf; yearTo := yt |})
  ∧ (∀ yt' hi hi',
       parseInt yt = Num hi → parseInt yt' = Num hi' → hi' ≤ hi →
       BookFinder.filteredBooks docs
         {| hasEbook := e; yearFrom := yf; yearTo := yt' |}
       `sublist_of` BookFinder.filteredBooks docs
         {| hasEbook := e; yearFrom := yf; yearTo := yt |})
  ∧ (∀ f, Books.filteredBooks docs f = BookFinder.filteredBooks docs f).
Proof.
  rewrite !filteredBooks_one_pass.
  repeat split; try done.
  - apply filter_sublist_mono. intros book.
    rewrite !keeps_spec. simpl. tauto.
  - apply filter_sublist_mono. intros book.
    rewrite !keeps_spec. simpl. tauto.
  - apply filter_sublist_mono. intros book.
    rewrite !keeps_spec. simpl. tauto.
  - intros yf' lo lo' Hlo Hlo' Hle. rewrite !filteredBooks_one_pass.
    apply filter_sublist_mono. intros book. rewrite !keeps_spec. simpl.
    intros (Hebook & Hfrom & Hto). repeat split; [done | | done].
    intros _. destruct Hfrom as (y & n & Hy & Hnz & Hn & Hyn).
    { intros E. simpl in Hlo'. rewrite E in Hlo'. discriminate. }
    simpl in Hn. exists y, lo. simpl. repeat split; [done | done | done |].
    assert (n = lo') by congruence. lia.
  - intros yt' hi hi' Hhi Hhi' Hle. rewrite !filteredBooks_one_pass.
    apply filter_sublist_mono. intros book. rewrite !keeps_spec. simpl.
    intros (Hebook & Hfrom & Hto). repeat split; [done | done |].
    intros _. destruct Hto as (y & n & Hy & Hnz & Hn & Hyn).
    { intros E. simpl in Hhi'. rewrite E in Hhi'. discriminate. }
    simpl in Hn. exists y, hi. simpl. repeat split; [done | done | done |].
    assert (n = hi') by congruence. lia.
Qed.

(** ** Year bounds written as decimal text *)

Lemma parseDigits_digits_acc (d : Decimal.uint) (p : positive) (rest : js_string) :
  (∀ acc, parseDigits 10 acc rest = acc) →
  parseDigits 10 (Some (Z.pos p)) (digits d ++ rest)
  = Some (Z.pos (Pos.of_uint_acc d p)).
Proof.
  intros Hstop. revert p.
  induction d as [|d IH|d IH|d IH|d IH|d IH|d IH|d IH|d IH|d IH|d IH];
    intros p; [apply Hstop | ..];
    cbn [digits app parseDigits Pos.of_uint_acc];
    rewrite <- IH; cbn -[Z.mul Z.add parseDigits digits Pos.mul Pos.add];
    do 2 f_equal; lia.
Qed.

Lemma parseDigits_digits_zero (d : Decimal.uint) (rest : js_string) :
  (∀ acc, parseDigits 10 acc rest = acc) →
  parseDigits 10 (Some 0) (digits d ++ rest)
  = Some (Z.of_N (Pos.of_uint d)).
Proof.
  intros Hstop.
  induction d as [|d IH|d IH|d IH|d IH|d IH|d IH|d IH|d IH|d IH|d IH];
    [apply Hstop | exact IH | ..];
    cbn [digits app Pos.of_uint Z.of_N];
    rewrite <- (parseDigits_digits_acc _ _ _ Hstop); reflexivity.
Qed.

Lemma parseDigits_digits (d : Decimal.uint) (rest : js_string) :
  d ≠ Decimal.Nil →
  (∀ acc, parseDigits 10 acc rest = acc) →
  parseDigits 10 None (digits d ++ rest) = Some (Z.of_N (Pos.of_uint d)).
Proof.
  intros Hd Hstop. rewrite <- (parseDigits_digits_zero d rest Hstop).
  destruct d; [done | reflexivity..].
Qed.

Lemma parseInt_digits (d : Decimal.uint) (rest : js_string) :
  d ≠ Decimal.Nil →
  rest = [] ∨ (∃ r, rest = 46%N :: r) →
  parseInt (digits d ++ rest) = Num (Z.of_N (Pos.of_uint d))
  ∧ parseInt (45%N :: digits d ++ rest) = Num (- Z.of_N (Pos.of_uint d)).
Proof.
  intros Hd Hrest.
  assert (Hstop : ∀ acc, parseDigits 10 acc rest = acc)
    by (by destruct Hrest as [-> | [r ->]]).
  pose proof (parseDigits_digits d rest Hd Hstop) as Hvalue.
  assert (Hplus : parseInt (digits d ++ rest)
                  = match parseDigits 10 None (digits d ++ rest) with
                    | None => NaN
                    | Some m => Num (1 * m)
                    end).
  { destruct Hrest as [-> | [r ->]];
      (destruct d as [|d|d|d|d|d|d|d|d|d|d]; [done | ..]; destruct d;
       reflexivity). }
  assert (Hminus : parseInt (45%N :: digits d ++ rest)
                   = match parseDigits 10 None (digits d ++ rest) with
                     | None => NaN
                     | Some m => Num (-1 * m)
                     end).
  { destruct Hrest as [-> | [r ->]];
      (destruct d as [|d|d|d|d|d|d|d|d|d|d]; [done | ..]; destruct d;
       reflexivity). }
  rewrite Hplus, Hminus, Hvalue. split; f_equal; lia.
Qed.

(** [parseInt] reads back the decimal text of an integer, also when a
    fractional part follows it. *)
Lemma parseInt_toString (z : Z) (rest : js_string) :
  rest = [] ∨ (∃ r, rest = 46%N :: r) →
  parseInt (toString z ++ rest) = Num z.
Proof.
  intros Hrest. unfold toString. destruct z as [|p|p]; simpl Z.to_int.
  - by destruct Hrest as [-> | [r ->]].
  - destruct (parseInt_digits (Pos.to_uint p) rest
                (Unsigned.to_uint_nonnil p) Hrest) as [-> _].
    by rewrite Unsigned.of_to.
  - change (parseInt (45%N :: digits (Pos.to_uint p) ++ rest) = Num (Z.neg p)).
    destruct (parseInt_digits (Pos.to_uint p) rest
                (Unsigned.to_uint_nonnil p) Hrest) as [_ ->].
    by rewrite Unsigned.of_to.
Qed.


(** X4. The year bounds are inclusive on both sides: with both year
    boxes holding the decimal text of the year of a record, that record is
    kept, provided its year is not [0].  Holds for both components. *)
Theorem own_year_bounds_keep (docs : list Book) (book : Book) (y : Z) :
  book ∈ docs →
  first_publish_year book = Some y →
  y ≠ 0 →
  book ∈ BookFinder.filteredBooks docs
           {| hasEbook := false; yearFrom := toString y; yearTo := toString y |}
  ∧ book ∈ Books.filteredBooks docs
             {| hasEbook := false; yearFrom := toString y;
                yearTo := toString y |}.
Proof.
  intros Hin Hy Hnz. both_components.
  enough (book ∈ BookFinder.filteredBooks docs
            {| hasEbook := false; yearFrom := toString y;
               yearTo := toString y |}) by tauto.
  pose proof (parseInt_toString y [] (or_introl eq_refl)) as Hparse.
  rewrite app_nil_r in Hparse.
  apply elem_of_filteredBooks. simpl.
  repeat split; [done | discriminate | |];
    intros _; exists y, y; simpl; repeat split; (done || lia).
Qed.

Lemma own_year_bounds_keep_witness :
  toString 1965 = lit "1965"
  ∧ dune ∈ BookFinder.filteredBooks [goodOmens; dune]
             {| hasEbook := false; yearFrom := toString 1965;
                yearTo := toString 1965 |}.
Proof.
  split; [reflexivity |].
  apply (own_year_bounds_keep [goodOmens; dune] dune 1965);
    [apply list_elem_of_In; simpl; tauto | reflexivity | lia].
Defined.


Example fractional_bound_sample :
  BookFinder.filteredBooks [dune; goodOmens; bare]
    {| hasEbook := false; yearFrom := lit "1965.9"; yearTo := lit "" |}
  = [dune; goodOmens].
Proof. reflexivity. Qed.

(** ** The search action, further *)

#[local] Instance same_inputs_equivalence : Equivalence same_inputs.
Proof.
  unfold same_inputs. split.
  - by intros s.
  - intros s t. intuition congruence.
  - intros s t u. intuition congruence.
Qed.


Lemma handleSearch_resume_same_inputs (f : Filters) (r : Response) (t : State) :
  same_inputs (BookFinder.handleSearch_resume f r t) t
  ∧ same_inputs (Books.handleSearch_resume f r t) t.
Proof.
  unfold BookFinder.handleSearch_resume, Books.handleSearch_resume.
  destruct r as [|[[|d l]|]]; by repeat split.
Qed.

(** X6. A search touches nothing but the result list, the message and the
    loading flag: the query, the search field, the criteria, the filter
    panel and the open detail view are the same afterwards, whatever the
    response; and the part of [handleSearch] that runs when the response
    arrives leaves those fields of the then current state alone.  Holds
    for both components. *)
Theorem search_frame (w : Browser) (s t : State) (f : Filters) (r : Response) :
  same_inputs (BookFinder.handleSearch w s).1 s
  ∧ same_inputs (Books.handleSearch w s).1 s
  ∧ same_inputs (BookFinder.handleSearch_resume f r t) t
  ∧ same_inputs (Books.handleSearch_resume f r t) t.
Proof.
  split; [| split; [| apply handleSearch_resume_same_inputs]].
  - unfold BookFinder.handleSearch, BookFinder.handleSearch_start.
    destruct (trim (searchQuery s)); simpl; [by repeat split |].
    destruct (encodeURIComponent w (searchQuery s)); simpl;
      [| by repeat split].
    etrans; [apply handleSearch_resume_same_inputs | by repeat split].
  - unfold Books.handleSearch, Books.handleSearch_start.
    destruct (trim (searchQuery s)); simpl; [by repeat split |].
    destruct (encodeURIComponent w (searchQuery s)); simpl;
      [| by repeat split].
    etrans; [apply handleSearch_resume_same_inputs | by repeat split].
Qed.




(** One call of [handleSearch] taken in isolation: every record in the
    result list after a call that ran was in the [docs] of the response to
    the one request it sent, and passes the criteria that were in force
    when the call was made.  Holds for both components. *)
Theorem results_come_from_response (w : Browser) (s : State) (book : Book) :
  trim (searchQuery s) ≠ [] →
  book ∈ books (BookFinder.handleSearch w s).1
  ∨ book ∈ books (Books.handleSearch w s).1 →
  ∃ url docs,
    (BookFinder.handleSearch w s).2 = [url]
    ∧ (Books.handleSearch w s).2 = [url]
    ∧ fetch_json w url = Resolved (Some docs)
    ∧ book ∈ docs
    ∧ keeps (filters s) book = true.
Proof.
  intros Hq.
  unfold BookFinder.handleSearch, BookFinder.handleSearch_start,
    Books.handleSearch, Books.handleSearch_start.
  destruct (trim (searchQuery s)); [done |]. cbn -[lit].
  destruct (encodeURIComponent w (searchQuery s)) as [q|]; cbn -[lit];
    [| by intros [Hin | Hin]; apply elem_of_nil in Hin].
  set (url := lit "https://openlibrary.org/search.json?" ++ searchType s
              ++ lit "=" ++ q ++ lit "&limit=20").
  unfold BookFinder.handleSearch_resume, Books.handleSearch_resume.
  both_components.
  destruct (fetch_json w url) as [|[[|d l]|]] eqn:Hresp; cbn -[lit];
    try (by intros [Hin | Hin]; apply elem_of_nil in Hin).
  intros Hin.
  assert (Hin' : book ∈ BookFinder.filteredBooks (d :: l) (filters s))
    by tauto.
  rewrite filteredBooks_one_pass, list_elem_of_filter, Is_true_true in Hin'.
  destruct Hin' as [Hkeeps Hdocs].
  exists url, (d :: l). repeat split; assumption || reflexivity.
Qed.

Lemma results_come_from_response_witness :
  trim (searchQuery (withQuery (lit "dune") midSession)) ≠ []
  ∧ dune ∈ books (BookFinder.handleSearch
                    (answering (Resolved (Some [bare; dune])))
                    (withQuery (lit "dune") midSession)).1
  ∧ ∃ url docs,
      (BookFinder.handleSearch (answering (Resolved (Some [bare; dune])))
         (withQuery (lit "dune") midSession)).2 = [url]
      ∧ (Books.handleSearch (answering (Resolved (Some [bare; dune])))
           (withQuery (lit "dune") midSession)).2 = [url]
      ∧ fetch_json (answering (Resolved (Some [bare; dune]))) url
        = Resolved (Some docs)
      ∧ dune ∈ docs
      ∧ keeps (filters (withQuery (lit "dune") midSession)) dune = true.
Proof.
  assert (Hq : trim (searchQuery (withQuery (lit "dune") midSession)) ≠ [])
    by discriminate.
  assert (Hin : dune ∈ books (BookFinder.handleSearch
                    (answering (Resolved (Some [bare; dune])))
                    (withQuery (lit "dune") midSession)).1).
  { apply list_elem_of_In. simpl. tauto. }
  split; [exact Hq |]. split; [exact Hin |].
  exact (results_come_from_response
           (answering (Resolved (Some [bare; dune])))
           (withQuery (lit "dune") midSession) dune Hq (or_introl Hin)).
Defined.

(** ** Presentation, further *)

Lemma getCoverUrl_Some (book : Book) (size : js_string) (c : Z) :
  cover_i book = Some c → c ≠ 0 →
  BookFinder.getCoverUrl book size
  = Some (lit "https://covers.openlibrary.org/b/id/" ++ toString c
          ++ lit "-" ++ size ++ lit ".jpg").
Proof.
  intros Hc Hnz. unfold BookFinder.getCoverUrl. rewrite Hc.
  cbn -[lit toString]. by destruct (Z.eqb_spec c 0).
Qed.

Lemma getCoverUrl_None (book : Book) (size : js_string) :
  BookFinder.getCoverUrl book size = None ↔
  cover_i book = None ∨ cover_i book = Some 0.
Proof.
  unfold BookFinder.getCoverUrl.
  destruct (cover_i book) as [c|]; cbn -[lit toString]; [| by intuition].
  destruct (Z.eqb_spec c 0) as [-> | Hnz]; cbn -[lit toString].
  - by intuition.
  - split; [discriminate | intros [? | [= ?]]; done].
Qed.

(** X9. A cover image is drawn, on the card and in the detail view alike,
    exactly when [cover_i] is present and not [0]; otherwise the
    placeholder icon is drawn.  When drawn, the two sources are the cover
    URL of that id with size letter [M] on the card and [L] in the detail
    view.  Holds for both components. *)
Theorem cover_drawn_iff (book : Book) :
  (card_cover (BookFinder.BookCard book) = None ↔
     cover_i book = None ∨ cover_i book = Some 0)
  ∧ (modal_cover (BookFinder.BookModal book) = None ↔
     cover_i book = None ∨ cover_i book = Some 0)
  ∧ (∀ c, cover_i book = Some c → c ≠ 0 →
       card_cover (BookFinder.BookCard book)
       = Some (lit "https://covers.openlibrary.org/b/id/" ++ toString c
               ++ lit "-M.jpg")
       ∧ modal_cover (BookFinder.BookModal book)
         = Some (lit "https://covers.openlibrary.org/b/id/" ++ toString c
                 ++ lit "-L.jpg"))
  ∧ card_cover (Books.BookCard book) = card_cover (BookFinder.BookCard book)
  ∧ modal_cover (Books.BookModal book)
    = modal_cover (BookFinder.BookModal book).
Proof.
  assert (Hshown : ∀ size,
    img_or_icon (BookFinder.getCoverUrl book size)
    = BookFinder.getCoverUrl book size).
  { intros size. unfold BookFinder.getCoverUrl.
    destruct (cover_i book) as [c|]; [| done].
    by destruct (truthy_number (Some c)). }
  unfold BookFinder.BookCard, BookFinder.BookModal, Books.BookCard,
    Books.BookModal. cbn [card_cover modal_cover].
  change Books.getCoverUrl with BookFinder.getCoverUrl.
  rewrite !Hshown, !getCoverUrl_None.
  repeat split; try tauto.
  - rewrite (getCoverUrl_Some book _ c) by done. reflexivity.
  - rewrite (getCoverUrl_Some book _ c) by done. reflexivity.
Qed.

Lemma toString_inj (a b : Z) : toString a = toString b → a = b.
Proof.
  intros Heq.
  pose proof (parseInt_toString a [] (or_introl eq_refl)) as Ha.
  pose proof (parseInt_toString b [] (or_introl eq_refl)) as Hb.
  rewrite app_nil_r in Ha, Hb. rewrite Heq in Ha. congruence.
Qed.

(** X10. The cover URL identifies the cover: two records with covers get
    the same URL, for a given size, only if their cover ids are equal.
    Holds for both components. *)
Theorem cover_url_injective (b1 b2 : Book) (size : js_string) (c1 c2 : Z) :
  cover_i b1 = Some c1 → c1 ≠ 0 →
  cover_i b2 = Some c2 → c2 ≠ 0 →
  BookFinder.getCoverUrl b1 size = BookFinder.getCoverUrl b2 size
  ∨ Books.getCoverUrl b1 size = Books.getCoverUrl b2 size →
  c1 = c2.
Proof.
  intros H1 N1 H2 N2. change Books.getCoverUrl with BookFinder.getCoverUrl.
  rewrite (getCoverUrl_Some b1 size c1), (getCoverUrl_Some b2 size c2) by done.
  intros Heq. assert (Heq' :
    lit "https://covers.openlibrary.org/b/id/" ++ toString c1
      ++ lit "-" ++ size ++ lit ".jpg"
    = lit "https://covers.openlibrary.org/b/id/" ++ toString c2
      ++ lit "-" ++ size ++ lit ".jpg") by (destruct Heq; congruence).
  apply app_inv_head in Heq'.
  apply toString_inj.
  rewrite !(assoc_L (++)) in Heq'.
  apply app_inv_tail in Heq'. apply app_inv_tail in Heq'.
  by apply app_inv_tail in Heq'.
Qed.

Lemma cover_url_injective_witness :
  BookFinder.getCoverUrl dune (lit "M") = BookFinder.getCoverUrl dune (lit "M")
  ∧ 11481354 = 11481354.
Proof.
  split; [reflexivity |].
  apply (cover_url_injective dune dune (lit "M") 11481354 11481354);
    [reflexivity | lia | reflexivity | lia | left; reflexivity].
Defined.

Lemma join_take_prefix (sep : js_string) (n : nat) (l : list js_string) :
  join sep (take n l) `prefix_of` join sep l.
Proof.
  revert n. induction l as [|x r IH]; intros n.
  - by rewrite take_nil.
  - destruct n as [|n]; [apply prefix_nil |].
    destruct r as [|y r]; [by destruct n |].
    destruct n as [|n].
    + simpl. by apply prefix_app_r.
    + change (join sep (take (S (S n)) (x :: y :: r)))
        with (x ++ sep ++ join sep (take (S n) (y :: r))).
      change (join sep (x :: y :: r)) with (x ++ sep ++ join sep (y :: r)).
      do 2 apply prefix_app. apply IH.
Qed.

(** X11. The author line of a card never disagrees with the detail view:
    in the typed component the text on the card is a prefix of the text in
    the detail view (the first two names, or the placeholder), in the
    untyped component the two texts are equal; and the title is the same
    on the card and in the detail view. *)
Theorem card_authors_prefix_of_modal (book : Book) :
  card_authors (BookFinder.BookCard book)
    `prefix_of` modal_authors (BookFinder.BookModal book)
  ∧ card_authors (Books.BookCard book) = modal_authors (Books.BookModal book)
  ∧ card_title (BookFinder.BookCard book)
    = modal_title (BookFinder.BookModal book)
  ∧ card_title (Books.BookCard book) = modal_title (Books.BookModal book).
Proof.
  repeat split; try reflexivity.
  cbn [card_authors modal_authors BookFinder.BookCard BookFinder.BookModal].
  destruct (author_name book) as [a|]; [apply join_take_prefix | done].
Qed.

(** X12. The subject tags of the detail view are the first ten subjects
    of the record, in order, never more; the typed component omits the
    block when there is no subject at all, the untyped one only when the
    field is missing.  The edition count shown is the record's, and [0]
    when it is missing.  *)
Theorem modal_subjects_bounded (book : Book) :
  match modal_subjects (BookFinder.BookModal book) with
  | Some tags =>
      tags ≠ [] ∧ (length tags ≤ 10)%nat
      ∧ ∃ l, subject book = Some l ∧ tags `prefix_of` l
             ∧ length tags = Nat.min 10 (length l)
  | None => subject book = None ∨ subject book = Some []
  end
  ∧ match modal_subjects (Books.BookModal book) with
    | Some tags =>
        (length tags ≤ 10)%nat
        ∧ ∃ l, subject book = Some l ∧ tags `prefix_of` l
               ∧ length tags = Nat.min 10 (length l)
    | None => subject book = None
    end
  ∧ modal_editions (BookFinder.BookModal book)
    = CNum (default 0 (edition_count book))
  ∧ modal_editions (Books.BookModal book)
    = CNum (default 0 (edition_count book)).
Proof.
  cbn [modal_subjects modal_editions BookFinder.BookModal Books.BookModal].
  split; [| split].
  - destruct (subject book) as [[|x l]|]; cbn -[take]; [tauto | | tauto].
    split; [done |]. rewrite length_take. split; [lia |].
    exists (x :: l). split; [done |]. split; [apply prefix_take | done].
  - destruct (subject book) as [l|]; [| done].
    rewrite length_take. split; [lia |].
    exists l. split; [done |]. split; [apply prefix_take | done].
  - destruct (edition_count book) as [[|p|p]|]; by split.
Qed.

(** ** The component as an event-driven system *)

Lemma run_snoc (C : Component) (w : Browser) (events : list Event)
    (e : Event) (c : Config) :
  run C w (events ++ [e]) c = step C w e (run C w events c).
Proof. unfold run. by rewrite fold_left_app. Qed.

(** Induction over the reachable configurations. *)
Lemma reachable_ind (C : Component) (w : Browser) (P : Config → Prop) :
  P initialConfig →
  (∀ c e, reachable C w c → P c → P (step C w e c)) →
  ∀ c, reachable C w c → P c.
Proof.
  intros Hinit Hstep c [events ->].
  induction events as [|e events IH] using rev_ind; [exact Hinit |].
  rewrite run_snoc. apply Hstep; [by exists events | exact IH].
Qed.

(** What a call of [handleSearch] does to a configuration, for either
    component: nothing on a blank query; the "failed" outcome when the
    query cannot be encoded; otherwise one more pending request. *)
Lemma callHandleSearch_cases (C : Component) (w : Browser) (c : Config) :
  C = typed ∨ C = untyped →
  (trim (searchQuery (view c)) = [] ∧ callHandleSearch C w c = c)
  ∨ (trim (searchQuery (view c)) ≠ []
     ∧ ∃ msg, msg ≠ []
       ∧ callHandleSearch C w c
         = {| view := setLoading false (setError msg (pendingState (view c)));
              inflight := inflight c |})
  ∨ (trim (searchQuery (view c)) ≠ []
     ∧ ∃ q, encodeURIComponent w (searchQuery (view c)) = Some q
       ∧ callHandleSearch C w c
         = {| view := pendingState (view c);
              inflight := inflight c
                ++ [(filters (view c), searchUrl (searchType (view c)) q)] |}).
Proof.
  intros [-> | ->]; unfold callHandleSearch; cbn [c_start typed untyped];
    unfold BookFinder.handleSearch_start, Books.handleSearch_start;
    (destruct (trim (searchQuery (view c))) as [|x r]; cbn -[lit];
     [left; by destruct c |]);
    (destruct (encodeURIComponent w (searchQuery (view c))) as [q|];
     [right; right; split; [done |]; by exists q |
      right; left; split; [done |]]).
  - by exists BookFinder.failedMessage.
  - by exists Books.failedMessage.
Qed.

(** What the arrival of a response does to the state, for either
    component: it switches loading off and either stores the filtered
    records of a non-empty [docs] or sets a message. *)
Lemma resume_cases (C : Component) (f : Filters) (r : Response) (s : State) :
  C = typed ∨ C = untyped →
  (∃ docs, docs ≠ [] ∧ r = Resolved (Some docs)
     ∧ c_resume C f r s
       = setLoading false (setBooks (BookFinder.filteredBooks docs f) s))
  ∨ (∃ msg, msg ≠ [] ∧ c_resume C f r s = setLoading false (setError msg s)).
Proof.
  intros [-> | ->]; cbn [c_resume typed untyped];
    unfold BookFinder.handleSearch_resume, Books.handleSearch_resume;
    destruct r as [|[[|d l]|]]; cbn -[lit];
    try (left; by exists (d :: l));
    right;
    first [ by exists BookFinder.noBooksMessage
          | by exists BookFinder.failedMessage
          | by exists Books.failedMessage ].
Qed.

(** X13. The loading indicator is never stuck: in every reachable
    configuration, if the indicator is on (and the Search button therefore
    disabled) some request is still pending, so that once every pending
    request has completed the button is enabled again.  Holds for both
    components, whatever the order of events. *)
Theorem loading_implies_pending (C : Component) (w : Browser) (c : Config) :
  C = typed ∨ C = untyped →
  reachable C w c →
  (loading (view c) = true → inflight c ≠ [])
  ∧ (inflight c = [] → loading (view c) = false).
Proof.
  intros HC Hreach.
  enough (Hinv : loading (view c) = true → inflight c ≠ []).
  { split; [exact Hinv |]. intros Hnone.
    destruct (loading (view c)); [by destruct Hinv | done]. }
  revert c Hreach.
  apply (reachable_ind C w (λ c, loading (view c) = true → inflight c ≠ []));
    [discriminate |].
  intros c e _ IH.
  destruct e; cbn -[lit callHandleSearch searchTypes]; try exact IH.
  - case_bool_decide; [| exact IH].
    destruct (callHandleSearch_cases C w c HC)
      as [[_ ->] | [(_ & msg & _ & ->) | (_ & q & _ & ->)]];
      [exact IH | discriminate | intros _; by destruct (inflight c)].
  - by destruct (searchTypes !! i).
  - destruct (loading (view c)) eqn:Hload; [by rewrite Hload |].
    destruct (callHandleSearch_cases C w c HC)
      as [[_ ->] | [(_ & msg & _ & ->) | (_ & q & _ & ->)]];
      [by rewrite Hload | discriminate | intros _; by destruct (inflight c)].
  - by destruct (showFilters (view c)).
  - by destruct (showFilters (view c)).
  - by destruct (showFilters (view c)).
  - by destruct (books (view c) !! i).
  - by destruct (selectedBook (view c)).
  - destruct (inflight c !! i) as [[f url]|]; [| exact IH].
    destruct (resume_cases C f data (view c) HC)
      as [(docs & _ & _ & ->) | (msg & _ & ->)]; discriminate.
Qed.

Lemma loading_implies_pending_witness :
  reachable typed (answering Rejected)
    (run typed (answering Rejected) duneTyped initialConfig)
  ∧ loading (view (run typed (answering Rejected) duneTyped initialConfig))
    = true
  ∧ inflight (run typed (answering Rejected) duneTyped initialConfig) ≠ [].
Proof.
  assert (Hreach : reachable typed (answering Rejected)
            (run typed (answering Rejected) duneTyped initialConfig))
    by (by exists duneTyped).
  split; [exact Hreach |]. split; [reflexivity |].
  exact (proj1 (loading_implies_pending typed (answering Rejected) _
                  (or_introl eq_refl) Hreach) eq_refl).
Defined.

(** X14. Every request the component sends is a well-formed search
    request: in every reachable configuration the selected search field is
    one of [title], [author] and [subject], and each pending request has
    the endpoint URL with one of these fields as parameter name, the
    encoding of a non-blank query as its value, and [limit=20].  Holds for
    both components. *)
Theorem requests_well_formed (C : Component) (w : Browser) (c : Config) :
  C = typed ∨ C = untyped →
  reachable C w c →
  searchType (view c) ∈ searchTypes
  ∧ ∀ f url, (f, url) ∈ inflight c → wellFormedUrl w url.
Proof.
  intros HC Hreach. revert c Hreach.
  apply (reachable_ind C w (λ c,
    searchType (view c) ∈ searchTypes
    ∧ ∀ f url, (f, url) ∈ inflight c → wellFormedUrl w url)).
  { split; [by apply list_elem_of_In; left |].
    intros f url Hin. by apply elem_of_nil in Hin. }
  intros c e _ [Htype Hurls].
  assert (Hcall : searchType (view (callHandleSearch C w c)) ∈ searchTypes
    ∧ ∀ f url, (f, url) ∈ inflight (callHandleSearch C w c) →
               wellFormedUrl w url).
  { destruct (callHandleSearch_cases C w c HC)
      as [[_ ->] | [(_ & msg & _ & ->) | (Hq & q & Henc & ->)]];
      [done | done |].
    split; [done |]. cbn [inflight]. intros f url Hin.
    apply elem_of_app in Hin as [Hin | Hin]; [by eapply Hurls |].
    apply list_elem_of_singleton in Hin as [= -> ->].
    by exists (searchType (view c)), (searchQuery (view c)), q. }
  destruct e; cbn -[lit callHandleSearch searchTypes]; try done.
  - by case_bool_decide.
  - destruct (searchTypes !! i) as [value|] eqn:Hi; [| done].
    split; [| done]. by eapply list_elem_of_lookup_2.
  - by destruct (loading (view c)).
  - by destruct (showFilters (view c)).
  - by destruct (showFilters (view c)).
  - by destruct (showFilters (view c)).
  - by destruct (books (view c) !! i).
  - by destruct (selectedBook (view c)).
  - destruct (inflight c !! i) as [[f0 url0]|] eqn:Hi; [| done].
    cbn [view inflight]. split.
    + destruct HC as [-> | ->]; cbn [c_resume typed untyped].
      * destruct (handleSearch_resume_same_inputs f0 data (view c))
          as [(_ & -> & _) _]. done.
      * destruct (handleSearch_resume_same_inputs f0 data (view c))
          as [_ (_ & -> & _)]. done.
    + intros f url Hin. apply (Hurls f url).
      by eapply list_elem_of_delete_inv.
Qed.

Lemma requests_well_formed_witness :
  reachable untyped (answering Rejected)
    (run untyped (answering Rejected) duneTyped initialConfig)
  ∧ inflight (run untyped (answering Rejected) duneTyped initialConfig)
    = [(initialFilters,
        lit "https://openlibrary.org/search.json?title=dune&limit=20")]
  ∧ wellFormedUrl (answering Rejected)
      (lit "https://openlibrary.org/search.json?title=dune&limit=20").
Proof.
  assert (Hreach : reachable untyped (answering Rejected)
            (run untyped (answering Rejected) duneTyped initialConfig))
    by (by exists duneTyped).
  split; [exact Hreach |]. split; [reflexivity |].
  apply (proj2 (requests_well_formed untyped (answering Rejected) _
                  (or_intror eq_refl) Hreach) initialFilters).
  apply list_elem_of_In. left. reflexivity.
Defined.

Lemma orderly_step (C : Component) (w : Browser) (e : Event) (c : Config) :
  C = typed ∨ C = untyped →
  orderly c →
  (startsSearch e c = true → inflight c = []) →
  orderly (step C w e c).
Proof.
  intros HC Hord Hstart.
  assert (Hcall : (truthy_string (trim (searchQuery (view c))) = true →
                   inflight c = []) →
                  orderly (callHandleSearch C w c)).
  { intros Hguard.
    destruct (callHandleSearch_cases C w c HC)
      as [[_ ->] | [(Hq & msg & Hmsg & ->) | (Hq & q & _ & ->)]]; [done | |];
      apply truthy_string_true in Hq; specialize (Hguard Hq);
      destruct Hord as (Hlen & Hpending & Hidle);
      unfold orderly; cbn -[lit]; rewrite Hguard; cbn -[lit].
    - repeat split; (done || lia || by right).
    - repeat split; (done || lia). }
  destruct e; cbn -[lit callHandleSearch searchTypes] in *; try done.
  - case_bool_decide; [by apply Hcall | done].
  - by destruct (searchTypes !! i).
  - destruct (loading (view c)); [done | by apply Hcall].
  - by destruct (showFilters (view c)).
  - by destruct (showFilters (view c)).
  - by destruct (showFilters (view c)).
  - by destruct (books (view c) !! i).
  - by destruct (selectedBook (view c)).
  - destruct (inflight c !! i) as [[f url]|] eqn:Hi; [| done].
    destruct Hord as (Hlen & Hpending & Hidle).
    assert (Hne : inflight c ≠ []) by (intros E; by rewrite E in Hi).
    destruct (Hpending Hne) as (Hload & Hbooks & Herr).
    assert (Hgone : delete i (inflight c) = []).
    { destruct (inflight c) as [|x [|y l]]; [done | | simpl in Hlen; lia].
      by destruct i. }
    unfold orderly. cbn [view inflight]. rewrite Hgone.
    destruct (resume_cases C f data (view c) HC)
      as [(docs & _ & _ & ->) | (msg & _ & ->)]; cbn -[lit].
    + split; [lia |]. split; [done |]. intros _. split; [done | by left].
    + split; [lia |]. split; [done |]. intros _. split; [done | by right].
Qed.

Lemma orderly_run (C : Component) (w : Browser) (events : list Event)
    (c : Config) :
  C = typed ∨ C = untyped →
  orderly c → noOverlap C w events c → orderly (run C w events c).
Proof.
  intros HC. revert c.
  induction events as [|e events IH]; intros c Hord Hno; [exact Hord |].
  destruct Hno as [Hstart Hrest].
  apply (IH (step C w e c)); [by apply orderly_step | exact Hrest].
Qed.

(** X15. As long as no search is started while another is pending,
    results and a message are never on screen together, at most one
    request is pending, and the loading indicator is on exactly while it
    is; while it is pending the screen shows neither results nor a message.
    Holds for both components. *)
Theorem no_overlap_is_orderly (C : Component) (w : Browser)
    (events : list Event) :
  C = typed ∨ C = untyped →
  noOverlap C w events initialConfig →
  (error (view (run C w events initialConfig)) = []
   ∨ books (view (run C w events initialConfig)) = [])
  ∧ (length (inflight (run C w events initialConfig)) ≤ 1)%nat
  ∧ (loading (view (run C w events initialConfig)) = true ↔
     inflight (run C w events initialConfig) ≠ [])
  ∧ (inflight (run C w events initialConfig) ≠ [] →
     books (view (run C w events initialConfig)) = []
     ∧ error (view (run C w events initialConfig)) = []).
Proof.
  intros HC Hno.
  assert (Hinit : orderly initialConfig).
  { unfold orderly. cbn. repeat split; (done || lia || by left). }
  destruct (orderly_run C w events initialConfig HC Hinit Hno)
    as (Hlen & Hpending & Hidle).
  destruct (inflight (run C w events initialConfig)) as [|x l] eqn:Hfl.
  - destruct (Hidle eq_refl) as [Hload Hexcl].
    repeat split; try done. by rewrite Hload.
  - destruct (Hpending ltac:(done)) as (Hload & Hbooks & Herr).
    repeat split; try done. by left.
Qed.

Lemma no_overlap_is_orderly_witness :
  noOverlap typed (answering Rejected) duneFound initialConfig
  ∧ books (view (run typed (answering Rejected) duneFound initialConfig))
    = [dune]
  ∧ (error (view (run typed (answering Rejected) duneFound initialConfig)) = []
     ∨ books (view (run typed (answering Rejected) duneFound initialConfig))
       = []).
Proof.
  assert (Hno : noOverlap typed (answering Rejected) duneFound initialConfig).
  { repeat split; intros Hstart;
      first [reflexivity | vm_compute in Hstart; discriminate Hstart]. }
  split; [exact Hno |]. split; [reflexivity |].
  exact (proj1 (no_overlap_is_orderly typed (answering Rejected) duneFound
                  (or_introl eq_refl) Hno)).
Defined.

Lemma step_enter (C : Component) (w : Browser) (c : Config) :
  step C w (QueryKeyPress (lit "Enter")) c = callHandleSearch C w c.
Proof. unfold step. by rewrite bool_decide_eq_true_2. Qed.

Lemma callHandleSearch_awaiting (C : Component) (w : Browser) (c : Config)
    (q : js_string) :
  C = typed ∨ C = untyped →
  trim (searchQuery (view c)) ≠ [] →
  encodeURIComponent w (searchQuery (view c)) = Some q →
  callHandleSearch C w c
  = {| view := pendingState (view c);
       inflight := inflight c
         ++ [(filters (view c), searchUrl (searchType (view c)) q)] |}.
Proof.
  intros [-> | ->] Hq Henc; unfold callHandleSearch;
    cbn [c_start typed untyped];
    unfold BookFinder.handleSearch_start, Books.handleSearch_start;
    rewrite Henc; by destruct (trim (searchQuery (view c))).
Qed.

Lemma resume_docs (C : Component) (f : Filters) (docs : list Book) (s : State) :
  C = typed ∨ C = untyped → docs ≠ [] →
  c_resume C f (Resolved (Some docs)) s
  = setLoading false (setBooks (BookFinder.filteredBooks docs f) s).
Proof. intros [-> | ->] Hdocs; by destruct docs. Qed.

Lemma resume_rejected (C : Component) (f : Filters) (s : State) :
  C = typed ∨ C = untyped →
  ∃ msg, msg ≠ []
         ∧ c_resume C f Rejected s = setLoading false (setError msg s).
Proof.
  intros [-> | ->];
    [by exists BookFinder.failedMessage | by exists Books.failedMessage].
Qed.

(** X16. Overlapping searches interfere.  When Enter is pressed twice
    before any response arrives and the first response brings records
    while the second fails, the screen ends up showing those records
    together with the "failed" message, and after the first response the
    loading indicator is off although a request is still pending.  When a
    search for one query is followed by a search for another and the
    response to the later one arrives first, the records left on screen are
    those of the earlier query.  Holds for both components. *)
Theorem overlapping_searches_interfere
    (C : Component) (w : Browser) (a b qa qb : js_string)
    (docsA docsB : list Book) :
  C = typed ∨ C = untyped →
  trim a ≠ [] → encodeURIComponent w a = Some qa →
  trim b ≠ [] → encodeURIComponent w b = Some qb →
  docsA ≠ [] → docsB ≠ [] →
  (books (view (run C w (twiceThenMixed a docsA) initialConfig)) = docsA
   ∧ error (view (run C w (twiceThenMixed a docsA) initialConfig)) ≠ []
   ∧ loading (view (run C w (take 4 (twiceThenMixed a docsA)) initialConfig))
     = false
   ∧ inflight (run C w (take 4 (twiceThenMixed a docsA)) initialConfig)
     = [(initialFilters, searchUrl (lit "title") qa)])
  ∧ (searchQuery (view (run C w (staleArrival a b docsA docsB) initialConfig))
     = b
     ∧ books (view (run C w (staleArrival a b docsA docsB) initialConfig))
       = docsA
     ∧ inflight (run C w (staleArrival a b docsA docsB) initialConfig) = []).
Proof.
  intros HC Ha Hqa Hb Hqb HdA HdB.
  unfold twiceThenMixed, staleArrival, run.
  cbn [fold_left take]. rewrite !step_enter.
  change (step C w (QueryChanged a) initialConfig)
    with {| view := setSearchQuery a initialState; inflight := [] |}.
  rewrite (callHandleSearch_awaiting C w
             {| view := setSearchQuery a initialState; inflight := [] |}
             qa HC Ha Hqa).
  cbn [view inflight app filters searchType setSearchQuery initialState].
  split.
  - rewrite (callHandleSearch_awaiting C w _ qa HC)
      by first [exact Ha | exact Hqa].
    cbn -[lit c_resume searchUrl].
    rewrite (resume_docs C initialFilters docsA _ HC HdA).
    destruct (resume_rejected C initialFilters
                (setLoading false (setBooks
                   (BookFinder.filteredBooks docsA initialFilters)
                   (pendingState (pendingState
                      (setSearchQuery a initialState))))) HC)
      as (msg & Hmsg & ->).
    by repeat split.
  - cbn -[lit c_resume searchUrl callHandleSearch].
    rewrite (callHandleSearch_awaiting C w _ qb HC)
      by first [exact Hb | exact Hqb].
    cbn -[lit c_resume searchUrl].
    rewrite (resume_docs C initialFilters docsB _ HC HdB).
    rewrite (resume_docs C initialFilters docsA _ HC HdA).
    by repeat split.
Qed.

Lemma overlapping_searches_interfere_witness :
  books (view (run typed (answering Rejected)
                 (twiceThenMixed (lit "dune") [dune]) initialConfig))
    = [dune]
  ∧ error (view (run typed (answering Rejected)
                   (twiceThenMixed (lit "dune") [dune]) initialConfig))
    = BookFinder.failedMessage
  ∧ searchQuery (view (run typed (answering Rejected)
                         (staleArrival (lit "dune") (lit "emma")
                            [dune] [goodOmens]) initialConfig))
    = lit "emma"
  ∧ books (view (run typed (answering Rejected)
                   (staleArrival (lit "dune") (lit "emma")
                      [dune] [goodOmens]) initialConfig))
    = [dune].
Proof.
  destruct (overlapping_searches_interfere typed (answering Rejected)
              (lit "dune") (lit "emma") (lit "dune") (lit "emma")
              [dune] [goodOmens] (or_introl eq_refl)
              ltac:(discriminate) eq_refl ltac:(discriminate) eq_refl
              ltac:(discriminate) ltac:(discriminate))
    as ((Hbooks & _) & (Hquery & Hstale & _)).
  split; [exact Hbooks |]. split; [reflexivity |].
  split; [exact Hquery | exact Hstale].
Defined.

Lemma grid_cards_map (C : Component) (s : State) :
  C = typed ∨ C = untyped →
  grid_cards (c_grid C s) = c_card C <$> books s.
Proof.
  intros [-> | ->]; cbn [c_grid c_card typed untyped]; [| done].
  by destruct (books s).
Qed.

(** X17. Clicking a card opens the detail view of the record that card
    was drawn from: the view shows that record, under the title the card
    carries, and the result list is untouched.  Closing the view removes
    it, and when no view was open before the click the component is back
    in the configuration it was in.  In the typed component the count line
    is present exactly when there are results and then tells their number.
    Holds for both components. *)
Theorem card_click_opens_its_record
    (C : Component) (w : Browser) (c : Config) (i : nat) (card : CardView) :
  C = typed ∨ C = untyped →
  grid_cards (c_grid C (view c)) !! i = Some card →
  (∃ book,
     books (view c) !! i = Some book
     ∧ card = c_card C book
     ∧ modalShown C (view (step C w (CardClicked i) c))
       = Some (c_modal C book)
     ∧ modal_title (c_modal C book) = card_title card)
  ∧ books (view (step C w (CardClicked i) c)) = books (view c)
  ∧ modalShown C
      (view (step C w ModalClosed (step C w (CardClicked i) c))) = None
  ∧ (selectedBook (view c) = None →
     step C w ModalClosed (step C w (CardClicked i) c) = c)
  ∧ length (grid_cards (c_grid C (view c))) = length (books (view c))
  ∧ (grid_count (c_grid typed (view c)) = Some (length (books (view c))) ↔
     books (view c) ≠ []).
Proof.
  intros HC Hcard. rewrite grid_cards_map in Hcard by done.
  rewrite list_lookup_fmap in Hcard.
  destruct (books (view c) !! i) as [book|] eqn:Hi; [| discriminate].
  injection Hcard as <-.
  cbn [step]. rewrite Hi. cbn [onView view selectedBook setSelectedBook].
  split; [| split; [| split; [| split; [| split]]]].
  - exists book. repeat split. by destruct HC as [-> | ->].
  - reflexivity.
  - reflexivity.
  - intros Hnone. destruct c as [[] ?]. simpl in Hnone. by subst.
  - rewrite grid_cards_map by done. by rewrite length_fmap.
  - cbn [c_grid typed]. destruct (books (view c)); by split.
Qed.

Lemma card_click_opens_its_record_witness :
  grid_cards (c_grid typed {| searchQuery := lit "dune";
       searchType := lit "title"; books := [goodOmens; dune];
       loading := false; error := lit ""; selectedBook := None;
       filters := initialFilters; showFilters := false |}) !! 1%nat
  = Some (BookFinder.BookCard dune)
  ∧ modal_title (BookFinder.BookModal dune) = lit "Dune".
Proof.
  split; [reflexivity |].
  destruct (card_click_opens_its_record typed (answering Rejected)
    {| view := {| searchQuery := lit "dune";
         searchType := lit "title"; books := [goodOmens; dune];
         loading := false; error := lit ""; selectedBook := None;
         filters := initialFilters; showFilters := false |};
       inflight := [] |} 1 (BookFinder.BookCard dune)
    (or_introl eq_refl) eq_refl) as ((book & Hi & _ & _ & Htitle) & _).
  injection Hi as <-. exact Htitle.
Defined.

Lemma untyped_handleSearch_awaiting (w : Browser) (s s1 : State)
    (url : js_string) :
  Books.handleSearch_start w s = Awaiting s1 url →
  s1 = pendingState s
  ∧ Books.handleSearch w s
    = (Books.handleSearch_resume (filters s) (fetch_json w url) s1, [url]).
Proof.
  intros Hstart. unfold Books.handleSearch. rewrite Hstart.
  split; [| reflexivity].
  unfold Books.handleSearch_start in Hstart.
  destruct (trim (searchQuery s)); [discriminate |].
  destruct (encodeURIComponent w (searchQuery s)); [| discriminate].
  by injection Hstart as <- _.
Qed.

(** One call of [handleSearch] of the untyped component taken in
    isolation: the loading flag ends off; when the request fails, or the
    query cannot be encoded, the message is its "failed" text; when the
    response has no [docs] or an empty one, the message is the
    "no results" text; each text appears in no other case, and with a
    message set the result list is empty. *)
Theorem untyped_search_error_outcomes (w : Browser) (s : State) :
  trim (searchQuery s) ≠ [] →
  loading (Books.handleSearch w s).1 = false
  ∧ Books.failedMessage ≠ Books.noBooksMessage
  ∧ (encodeURIComponent w (searchQuery s) = None →
       (Books.handleSearch w s).2 = []
       ∧ error (Books.handleSearch w s).1 = Books.failedMessage
       ∧ books (Books.handleSearch w s).1 = [])
  ∧ (∀ s1 url, Books.handleSearch_start w s = Awaiting s1 url →
       (fetch_json w url = Rejected ↔
          error (Books.handleSearch w s).1 = Books.failedMessage)
       ∧ (fetch_json w url = Resolved None
          ∨ fetch_json w url = Resolved (Some []) ↔
          error (Books.handleSearch w s).1 = Books.noBooksMessage)
       ∧ (error (Books.handleSearch w s).1 ≠ [] →
          books (Books.handleSearch w s).1 = [])).
Proof.
  intros Hq.
  split.
  { unfold Books.handleSearch, Books.handleSearch_start.
    destruct (trim (searchQuery s)); [done |]. simpl.
    by destruct (encodeURIComponent w (searchQuery s)). }
  split; [discriminate |].
  split.
  { intros Henc. unfold Books.handleSearch, Books.handleSearch_start.
    destruct (trim (searchQuery s)); [done |]. rewrite Henc.
    by repeat split. }
  intros s1 url Hstart.
  destruct (untyped_handleSearch_awaiting _ _ _ _ Hstart) as [-> ->].
  unfold Books.handleSearch_resume.
  destruct (fetch_json w url) as [|[[|d docs]|]]; simpl.
  - repeat split; try done; intros [? | ?]; discriminate.
  - repeat split; try done; try discriminate. by right.
  - repeat split; try done; try discriminate.
    intros [? | ?]; discriminate.
  - repeat split; try done; try discriminate. by left.
Qed.

Lemma untyped_search_error_outcomes_witness :
  trim (searchQuery (withQuery (lit "dune") midSession)) ≠ []
  ∧ loading (Books.handleSearch (answering (Resolved None))
               (withQuery (lit "dune") midSession)).1 = false
  ∧ error (Books.handleSearch (answering (Resolved None))
             (withQuery (lit "dune") midSession)).1 = Books.noBooksMessage.
Proof.
  assert (Hq : trim (searchQuery (withQuery (lit "dune") midSession)) ≠ [])
    by discriminate.
  split; [exact Hq |].
  destruct (untyped_search_error_outcomes (answering (Resolved None))
              (withQuery (lit "dune") midSession) Hq)
    as (Hload & _ & _ & Hawait).
  destruct (Hawait _ _ eq_refl) as (_ & Hnone & _).
  split; [exact Hload |]. exact (proj1 Hnone (or_introl eq_refl)).
Defined.

(** X19. In the untyped component too, the card carries the eBook badge,
    and the detail view reads "Available", exactly when [ebook_access] is
    not the string [no_ebook]; the two components agree on both for every
    record, and on the year shown in the detail view. *)
Theorem untyped_ebook_badge_condition (book : Book) :
  (card_badge (Books.BookCard book) = true ↔
     ebook_access book ≠ Some (lit "no_ebook"))
  ∧ (modal_ebook (Books.BookModal book) = lit "Available" ↔
     ebook_access book ≠ Some (lit "no_ebook"))
  ∧ (modal_ebook (Books.BookModal book) = lit "Not Available" ↔
     ebook_access book = Some (lit "no_ebook"))
  ∧ card_badge (Books.BookCard book) = card_badge (BookFinder.BookCard book)
  ∧ modal_ebook (Books.BookModal book)
    = modal_ebook (BookFinder.BookModal book)
  ∧ modal_year (Books.BookModal book) = modal_year (BookFinder.BookModal book).
Proof.
  cbn [card_badge modal_ebook modal_year Books.BookCard Books.BookModal
       BookFinder.BookCard BookFinder.BookModal].
  unfold strict_eq.
  destruct (bool_decide_reflect (ebook_access book = Some (lit "no_ebook")))
    as [Heq | Hne]; repeat split; try done.
Qed.

(** ** Searches that do not overlap *)

Lemma orderly_initial : orderly initialConfig.
Proof. unfold orderly. cbn. repeat split; (done || lia || by left). Qed.

Lemma reachedOrderly_orderly (C : Component) (w : Browser) (c : Config) :
  C = typed ∨ C = untyped → reachedOrderly C w c → orderly c.
Proof.
  intros HC (events & Hno & ->).
  by apply orderly_run; [| apply orderly_initial |].
Qed.

(** In an orderly configuration a pending request is the only one, and
    the screen is in the state the search left when it suspended. *)
Lemma orderly_pending (c : Config) (i : nat) (f : Filters) (url : js_string) :
  orderly c → inflight c !! i = Some (f, url) →
  loading (view c) = true ∧ books (view c) = [] ∧ error (view c) = []
  ∧ inflight c = [(f, url)] ∧ delete i (inflight c) = [].
Proof.
  intros (Hlen & Hpending & _) Hi.
  assert (Hne : inflight c ≠ []) by (intros E; by rewrite E in Hi).
  destruct (Hpending Hne) as (Hload & Hbooks & Herr).
  destruct (inflight c) as [|x [|y l]]; [done | | simpl in Hlen; lia].
  destruct i as [|i]; [| done]. injection Hi as ->. by repeat split.
Qed.

(** C7, as it stands, fails: Enter is not disabled while a search is
    pending.  After Enter is pressed twice on "dune" and the first response
    brings a record, the second request is still pending; when it fails,
    the "failed" message is set and the result list is not empty. *)
Lemma failure_leaves_results_when_overlapping :
  inflight (run typed plainBrowser foundWhilePending initialConfig)
    = [(initialFilters,
        lit "https://openlibrary.org/search.json?title=dune&limit=20")]
  ∧ error (view (step typed plainBrowser (ResponseArrived 0 Rejected)
                   (run typed plainBrowser foundWhilePending initialConfig)))
    = BookFinder.failedMessage
  ∧ loading (view (step typed plainBrowser (ResponseArrived 0 Rejected)
                     (run typed plainBrowser foundWhilePending initialConfig)))
    = false
  ∧ books (view (step typed plainBrowser (ResponseArrived 0 Rejected)
                   (run typed plainBrowser foundWhilePending initialConfig)))
    = [dune]
  ∧ books (view (step typed plainBrowser (ResponseArrived 0 Rejected)
                   (run typed plainBrowser foundWhilePending initialConfig)))
    ≠ [].
Proof. repeat split; try reflexivity. discriminate. Qed.

(** C7, amended.  Provided no search was started while another one was
    pending, the completion of the pending search of the typed component
    has exactly these outcomes: the loading flag is off and no request is
    left pending; the "failed" message is set exactly when the request
    failed, the "no results" message exactly when the response has no
    [docs] or an empty one, the two texts being different; and whenever a
    message is set the result list is empty.  A search that cannot encode
    its query ends at once with the "failed" message, an empty result list
    and the loading flag off. *)
Theorem failure_outcomes_without_overlap (w : Browser) (c : Config) :
  reachedOrderly typed w c →
  (∀ i f url data, inflight c !! i = Some (f, url) →
     loading (view (step typed w (ResponseArrived i data) c)) = false
     ∧ inflight (step typed w (ResponseArrived i data) c) = []
     ∧ (data = Rejected ↔
        error (view (step typed w (ResponseArrived i data) c))
        = BookFinder.failedMessage)
     ∧ (data = Resolved None ∨ data = Resolved (Some []) ↔
        error (view (step typed w (ResponseArrived i data) c))
        = BookFinder.noBooksMessage)
     ∧ (error (view (step typed w (ResponseArrived i data) c)) ≠ [] →
        books (view (step typed w (ResponseArrived i data) c)) = []))
  ∧ BookFinder.failedMessage ≠ BookFinder.noBooksMessage
  ∧ (trim (searchQuery (view c)) ≠ [] →
     encodeURIComponent w (searchQuery (view c)) = None →
     error (view (step typed w (QueryKeyPress (lit "Enter")) c))
       = BookFinder.failedMessage
     ∧ books (view (step typed w (QueryKeyPress (lit "Enter")) c)) = []
     ∧ loading (view (step typed w (QueryKeyPress (lit "Enter")) c)) = false
     ∧ inflight (step typed w (QueryKeyPress (lit "Enter")) c) = inflight c).
Proof.
  intros Hreach.
  pose proof (reachedOrderly_orderly typed w c (or_introl eq_refl) Hreach)
    as Hord.
  split; [| split; [discriminate |]].
  - intros i f url data Hi.
    destruct (orderly_pending c i f url Hord Hi)
      as (_ & Hbooks & Herr & _ & Hgone).
    cbn [step]. rewrite Hi. cbn [view inflight c_resume typed].
    rewrite Hgone. unfold BookFinder.handleSearch_resume.
    destruct data as [|[[|d docs]|]]; simpl; rewrite ?Hbooks, ?Herr.
    + repeat split; try done; intros [? | ?]; discriminate.
    + repeat split; try done; try discriminate. by right.
    + repeat split; try done; try discriminate.
      intros [? | ?]; discriminate.
    + repeat split; try done; try discriminate. by left.
  - intros Hq Henc. rewrite step_enter. unfold callHandleSearch.
    cbn [c_start typed]. unfold BookFinder.handleSearch_start.
    rewrite Henc. destruct (trim (searchQuery (view c))); [done |].
    by repeat split.
Qed.

Lemma failure_outcomes_without_overlap_witness :
  reachedOrderly typed plainBrowser
    (run typed plainBrowser duneTyped initialConfig)
  ∧ error (view (step typed plainBrowser (ResponseArrived 0 Rejected)
                   (run typed plainBrowser duneTyped initialConfig)))
    = BookFinder.failedMessage
  ∧ books (view (step typed plainBrowser (ResponseArrived 0 Rejected)
                   (run typed plainBrowser duneTyped initialConfig)))
    = [].
Proof.
  assert (Hreach : reachedOrderly typed plainBrowser
            (run typed plainBrowser duneTyped initialConfig)).
  { exists duneTyped. split; [| reflexivity].
    repeat split; intros Hstart;
      first [reflexivity | vm_compute in Hstart; discriminate Hstart]. }
  split; [exact Hreach |].
  destruct (failure_outcomes_without_overlap plainBrowser _ Hreach)
    as (Hdone & _ & _).
  destruct (Hdone 0%nat initialFilters _ Rejected eq_refl)
    as (_ & _ & Hfailed & _ & Hempty).
  pose proof (proj1 Hfailed eq_refl) as Herr.
  split; [exact Herr |]. apply Hempty. rewrite Herr. discriminate.
Defined.

(** C10, as it stands, fails: with the eBook filter on, Enter pressed
    twice on "dune" and a failure as the first response, the second request
    is still pending; when its response brings a record that the filter
    removes, the search completes with an empty result list and the
    "failed" text in the error banner. *)
Lemma filtered_out_shows_message_when_overlapping :
  inflight (run typed plainBrowser failedWhilePending initialConfig)
    = [(ebookOnly,
        lit "https://openlibrary.org/search.json?title=dune&limit=20")]
  ∧ BookFinder.filteredBooks [bare] ebookOnly = []
  ∧ books (view (step typed plainBrowser
                   (ResponseArrived 0 (Resolved (Some [bare])))
                   (run typed plainBrowser failedWhilePending initialConfig)))
    = []
  ∧ BookFinder.errorBanner
      (view (step typed plainBrowser
               (ResponseArrived 0 (Resolved (Some [bare])))
               (run typed plainBrowser failedWhilePending initialConfig)))
    = Some BookFinder.failedMessage
  ∧ Books.errorBanner
      (view (step untyped plainBrowser
               (ResponseArrived 0 (Resolved (Some [bare])))
               (run untyped plainBrowser failedWhilePending initialConfig)))
    = Some Books.failedMessage.
Proof. repeat split; reflexivity. Qed.

(** C10, amended.  Provided no search was started while another one was
    pending: when the response to the pending search carries a non-empty
    [docs] and the criteria that search captured remove every record of
    it, the search completes with an empty result list, the loading flag
    off and the empty message, so that the error banner shows nothing,
    neither the "no results" nor the "failed" text; had the response
    carried an empty [docs], the banner would show the "no results" text.
    Holds for both components. *)
Theorem filtered_out_is_silent_without_overlap
    (C : Component) (w : Browser) (c : Config) (i : nat) (f : Filters)
    (url : js_string) (docs : list Book) :
  C = typed ∨ C = untyped →
  reachedOrderly C w c →
  inflight c !! i = Some (f, url) →
  docs ≠ [] →
  BookFinder.filteredBooks docs f = [] ∧ Books.filteredBooks docs f = [] →
  books (view (step C w (ResponseArrived i (Resolved (Some docs))) c)) = []
  ∧ loading (view (step C w (ResponseArrived i (Resolved (Some docs))) c))
    = false
  ∧ error (view (step C w (ResponseArrived i (Resolved (Some docs))) c)) = []
  ∧ BookFinder.errorBanner
      (view (step C w (ResponseArrived i (Resolved (Some docs))) c)) = None
  ∧ Books.errorBanner
      (view (step C w (ResponseArrived i (Resolved (Some docs))) c)) = None
  ∧ BookFinder.errorBanner
      (view (step C w (ResponseArrived i (Resolved (Some []))) c))
    = Some BookFinder.noBooksMessage
  ∧ Books.errorBanner
      (view (step C w (ResponseArrived i (Resolved (Some []))) c))
    = Some Books.noBooksMessage.
Proof.
  intros HC Hreach Hi Hdocs [Hnone _].
  pose proof (reachedOrderly_orderly C w c HC Hreach) as Hord.
  destruct (orderly_pending c i f url Hord Hi) as (_ & _ & Herr & _ & _).
  cbn [step]. rewrite Hi. cbn [view].
  rewrite (resume_docs C f docs (view c) HC Hdocs), Hnone.
  unfold BookFinder.errorBanner, Books.errorBanner.
  cbn [books loading error setLoading setBooks]. rewrite Herr.
  repeat split; by destruct HC as [-> | ->].
Qed.

Lemma filtered_out_is_silent_without_overlap_witness :
  reachedOrderly untyped plainBrowser
    (run untyped plainBrowser ebookSearchPending initialConfig)
  ∧ BookFinder.filteredBooks [bare; goodOmens] ebookOnly = []
  ∧ books (view (step untyped plainBrowser
                   (ResponseArrived 0 (Resolved (Some [bare; goodOmens])))
                   (run untyped plainBrowser ebookSearchPending
                      initialConfig))) = []
  ∧ Books.errorBanner
      (view (step untyped plainBrowser
               (ResponseArrived 0 (Resolved (Some [bare; goodOmens])))
               (run untyped plainBrowser ebookSearchPending initialConfig)))
    = None.
Proof.
  assert (Hreach : reachedOrderly untyped plainBrowser
            (run untyped plainBrowser ebookSearchPending initialConfig)).
  { exists ebookSearchPending. split; [| reflexivity].
    repeat split; intros Hstart;
      first [reflexivity | vm_compute in Hstart; discriminate Hstart]. }
  split; [exact Hreach |]. split; [reflexivity |].
  destruct (filtered_out_is_silent_without_overlap untyped plainBrowser _
              0%nat ebookOnly _ [bare; goodOmens] (or_intror eq_refl) Hreach
              eq_refl ltac:(discriminate) (conj eq_refl eq_refl))
    as (Hbooks & _ & _ & _ & Hbanner & _).
  split; [exact Hbooks | exact Hbanner].
Defined.

(** X8. Provided no search was started while another one was pending,
    every record on screen when the pending search completes was in the
    [docs] of the response to its request, which is the only one pending,
    and passes the criteria that search captured when it was issued.
    Holds for both components. *)
Theorem results_come_from_response_without_overlap
    (C : Component) (w : Browser) (c : Config) (i : nat) (f : Filters)
    (url : js_string) (data : Response) (book : Book) :
  C = typed ∨ C = untyped →
  reachedOrderly C w c →
  inflight c !! i = Some (f, url) →
  book ∈ books (view (step C w (ResponseArrived i data) c)) →
  inflight c = [(f, url)]
  ∧ ∃ docs, data = Resolved (Some docs) ∧ book ∈ docs ∧ keeps f book = true.
Proof.
  intros HC Hreach Hi.
  pose proof (reachedOrderly_orderly C w c HC Hreach) as Hord.
  destruct (orderly_pending c i f url Hord Hi) as (_ & Hbooks & _ & Hone & _).
  cbn [step]. rewrite Hi. cbn [view].
  destruct (resume_cases C f data (view c) HC)
    as [(docs & _ & -> & ->) | (msg & _ & ->)];
    cbn [books setLoading setBooks setError].
  - rewrite filteredBooks_one_pass, list_elem_of_filter, Is_true_true.
    intros [Hkeeps Hdocs]. split; [done |]. by exists docs.
  - rewrite Hbooks. intros Hin. by apply elem_of_nil in Hin.
Qed.

Lemma results_come_from_response_without_overlap_witness :
  reachedOrderly typed plainBrowser
    (run typed plainBrowser duneTyped initialConfig)
  ∧ books (view (step typed plainBrowser
                   (ResponseArrived 0 (Resolved (Some [bare; dune])))
                   (run typed plainBrowser duneTyped initialConfig)))
    = [bare; dune]
  ∧ ∃ docs, Resolved (Some [bare; dune]) = Resolved (Some docs)
            ∧ dune ∈ docs ∧ keeps initialFilters dune = true.
Proof.
  assert (Hreach : reachedOrderly typed plainBrowser
            (run typed plainBrowser duneTyped initialConfig)).
  { exists duneTyped. split; [| reflexivity].
    repeat split; intros Hstart;
      first [reflexivity | vm_compute in Hstart; discriminate Hstart]. }
  split; [exact Hreach |]. split; [reflexivity |].
  apply (results_come_from_response_without_overlap typed plainBrowser _
           0%nat initialFilters _ (Resolved (Some [bare; dune])) dune
           (or_introl eq_refl) Hreach eq_refl).
  apply list_elem_of_In. simpl. tauto.
Defined.

(** X18. Provided no search was started while another one was pending,
    the completion of the pending search of the untyped component has
    exactly these outcomes: the loading flag is off and no request is left
    pending; its "failed" text is set exactly when the request failed, the
    "no results" text exactly when the response has no [docs] or an empty
    one, the two texts being different; and whenever a message is set the
    result list is empty.  A search that cannot encode its query ends at
    once with the "failed" text, an empty result list and the loading flag
    off. *)
Theorem untyped_failure_outcomes_without_overlap (w : Browser) (c : Config) :
  reachedOrderly untyped w c →
  (∀ i f url data, inflight c !! i = Some (f, url) →
     loading (view (step untyped w (ResponseArrived i data) c)) = false
     ∧ inflight (step untyped w (ResponseArrived i data) c) = []
     ∧ (data = Rejected ↔
        error (view (step untyped w (ResponseArrived i data) c))
        = Books.failedMessage)
     ∧ (data = Resolved None ∨ data = Resolved (Some []) ↔
        error (view (step untyped w (ResponseArrived i data) c))
        = Books.noBooksMessage)
     ∧ (error (view (step untyped w (ResponseArrived i data) c)) ≠ [] →
        books (view (step untyped w (ResponseArrived i data) c)) = []))
  ∧ Books.failedMessage ≠ Books.noBooksMessage
  ∧ (trim (searchQuery (view c)) ≠ [] →
     encodeURIComponent w (searchQuery (view c)) = None →
     error (view (step untyped w (QueryKeyPress (lit "Enter")) c))
       = Books.failedMessage
     ∧ books (view (step untyped w (QueryKeyPress (lit "Enter")) c)) = []
     ∧ loading (view (step untyped w (QueryKeyPress (lit "Enter")) c)) = false
     ∧ inflight (step untyped w (QueryKeyPress (lit "Enter")) c)
       = inflight c).
Proof.
  intros Hreach.
  pose proof (reachedOrderly_orderly untyped w c (or_intror eq_refl) Hreach)
    as Hord.
  split; [| split; [discriminate |]].
  - intros i f url data Hi.
    destruct (orderly_pending c i f url Hord Hi)
      as (_ & Hbooks & Herr & _ & Hgone).
    cbn [step]. rewrite Hi. cbn [view inflight c_resume untyped].
    rewrite Hgone. unfold Books.handleSearch_resume.
    destruct data as [|[[|d docs]|]]; simpl; rewrite ?Hbooks, ?Herr.
    + repeat split; try done; intros [? | ?]; discriminate.
    + repeat split; try done; try discriminate. by right.
    + repeat split; try done; try discriminate.
      intros [? | ?]; discriminate.
    + repeat split; try done; try discriminate. by left.
  - intros Hq Henc. rewrite step_enter. unfold callHandleSearch.
    cbn [c_start untyped]. unfold Books.handleSearch_start.
    rewrite Henc. destruct (trim (searchQuery (view c))); [done |].
    by repeat split.
Qed.

Lemma untyped_failure_outcomes_without_overlap_witness :
  reachedOrderly untyped plainBrowser
    (run untyped plainBrowser duneTyped initialConfig)
  ∧ error (view (step untyped plainBrowser (ResponseArrived 0 (Resolved None))
                   (run untyped plainBrowser duneTyped initialConfig)))
    = Books.noBooksMessage
  ∧ books (view (step untyped plainBrowser (ResponseArrived 0 (Resolved None))
                   (run untyped plainBrowser duneTyped initialConfig)))
    = [].
Proof.
  assert (Hreach : reachedOrderly untyped plainBrowser
            (run untyped plainBrowser duneTyped initialConfig)).
  { exists duneTyped. split; [| reflexivity].
    repeat split; intros Hstart;
      first [reflexivity | vm_compute in Hstart; discriminate Hstart]. }
  split; [exact Hreach |].
  destruct (untyped_failure_outcomes_without_overlap plainBrowser _ Hreach)
    as (Hdone & _ & _).
  destruct (Hdone 0%nat initialFilters _ (Resolved None) eq_refl)
    as (_ & _ & _ & Hnone & Hempty).
  pose proof (proj1 Hnone (or_introl eq_refl)) as Herr.
  split; [exact Herr |]. apply Hempty. rewrite Herr. discriminate.
Defined.
